(** * BYOL pretraining script ([pretraining.py]): model and properties

    The script trains an online encoder/projector/predictor against an
    exponential-moving-average target encoder/projector, maintains a smoothed
    correlation matrix [F] of the online projections, and every fifth epoch
    compares the eigenbasis of [F] with the predictor's linear map.

    Numbers are exact rationals ([Q], compared with Leibniz equality on the
    unreduced fractions the operations build): rounding of the float32
    kernels is outside this model, and so is broadcasting, two arrays of
    different shapes being an error.  A 1-D array, and every flattened weight
    array, is a [vec]; a 2-D array is a [mat], the list of its rows.  The
    collaborators that are not part of the script (data provider, network
    architectures, loss, optimizer, automatic differentiation, eigensolvers)
    are the fields of the class [Externals].

    Where the difference between exact and machine arithmetic decides a
    property, [update_f] is also given on Python floats, which are binary64
    numbers ([float], with the kernel's IEEE 754 operations). *)

From Stdlib Require Import QArith Floats.
From stdpp Require Import base list strings pretty.

Open Scope Q_scope.

(** A decimal literal in [float_scope] stands for the nearest binary64
    number, as it does in Python. *)
Set Warnings "-inexact-float".

(** ** Exceptions and fallible computations *)

Inductive exn : Set :=
| IndexError   (* list index out of range *)
| ValueError.  (* incompatible shapes, or [None] where a tensor is needed *)

Inductive result (A : Type) : Type :=
| Ok (a : A)
| Raise (e : exn).
Arguments Ok {A} a.
Arguments Raise {A} e.

#[global] Instance result_ret : MRet result := @Ok.
#[global] Instance result_bind : MBind result := λ A B f r,
  match r with
  | Ok a => f a
  | Raise e => Raise e
  end.

(** ** Tensors *)

Abbreviation vec := (list Q).
Abbreviation mat := (list (list Q)).

(** [l[i]] of a Python list. *)
Definition index {A : Type} (l : list A) (i : nat) : result A :=
  match l !! i with
  | Some x => Ok x
  | None => Raise IndexError
  end.

(** [c * v] and [c * M] for a Python scalar [c]. *)
Definition vscale (c : Q) (v : vec) : vec := Qmult c <$> v.
Definition mscale (c : Q) (M : mat) : mat := vscale c <$> M.

Definition mshape (M : mat) : list nat := length <$> M.

(** [a + b] of two arrays: elementwise on equal shapes, an error otherwise
    (broadcasting of unequal shapes is not modelled). *)
Definition vadd (a b : vec) : result vec :=
  if decide (length a = length b) then Ok (zip_with Qplus a b)
  else Raise ValueError.

Definition madd (A B : mat) : result mat :=
  if decide (mshape A = mshape B) then Ok (zip_with (zip_with Qplus) A B)
  else Raise ValueError.

(** Column [j] of a matrix, [tf.transpose] and [tf.matmul] on 2-D tensors. *)
Definition width (M : mat) : nat := length (hd [] M).
Definition col (j : nat) (M : mat) : vec := (λ r : vec, nth j r 0) <$> M.
Definition transpose (M : mat) : mat := (λ j, col j M) <$> seq 0 (width M).
Definition dot (u v : vec) : Q := foldr Qplus 0 (zip_with Qmult u v).
Definition matmul (A B : mat) : mat :=
  (λ r : vec, dot r <$> transpose B) <$> A.

(** [tf.expand_dims(z, 2)]: every row of the batch becomes a column matrix;
    [tf.expand_dims(z, 1)]: every row becomes a one-row matrix. *)
Definition expand_dims_2 (z : mat) : list mat := (λ r : vec, (λ a, [a]) <$> r) <$> z.
Definition expand_dims_1 (z : mat) : list mat := (λ r : vec, [r]) <$> z.

(** [tf.matmul] on 3-D tensors multiplies the matrices of the two batches
    pairwise. *)
Definition batch_matmul (As Bs : list mat) : list mat := zip_with matmul As Bs.

(** [tf.reduce_mean(t, axis=0)] of a 3-D tensor: the sum of its matrices
    divided by their number.  The matrices of one tensor have one shape, so
    the sum is the plain pairwise one.  (An empty batch has no shape here;
    the script always asks for 512 examples.) *)
Definition msum (Ms : list mat) : mat :=
  match Ms with
  | [] => []
  | M :: Ms' => foldl (zip_with (zip_with Qplus)) M Ms'
  end.

Definition mdiv (M : mat) (n : nat) : mat :=
  (λ r : vec, (λ x, x / inject_Z (Z.of_nat n)) <$> r) <$> M.

Definition reduce_mean_0 (Ms : list mat) : mat := mdiv (msum Ms) (length Ms).

(** Entry [(i, j)] of a matrix, when it exists. *)
Definition entry (M : mat) (i j : nat) : option Q := M !! i ≫= (.!! j).

(** A symmetric matrix is square and equal to its mirror image. *)
Definition symmetric (M : mat) : Prop :=
  Forall (λ r, length r = length M) M ∧ ∀ i j, entry M i j = entry M j i.

(** ** [update_f] *)

Definition lambda_default : Q := 0.8.

Definition update_f (F : option mat) (corr : mat) (lambda_ : Q) : result mat :=
  match F with
  | None => Ok corr
  | Some F => madd (mscale lambda_ F) (mscale (1 - lambda_) corr)
  end.


(** ** Networks *)

(** A Keras model owns its trainable variables followed by its other
    weights; [get_weights] lists both, [set_weights] needs the same number
    of arrays with the same shapes. *)
Record net : Type := Net {
  trainable_variables : list vec;
  non_trainable_variables : list vec;
}.

Definition get_weights (n : net) : list vec :=
  trainable_variables n ++ non_trainable_variables n.

Definition set_weights (n : net) (ws : list vec) : result net :=
  if decide (length <$> ws = length <$> get_weights n) then
    Ok (Net (take (length (trainable_variables n)) ws)
            (drop (length (trainable_variables n)) ws))
  else Raise ValueError.

(** The variables an optimizer call was given take their new values; any
    variable the [zip] with the gradients did not reach keeps its own. *)
Definition assign_trainable (n : net) (vs : list vec) : net :=
  Net (vs ++ drop (length vs) (trainable_variables n))
      (non_trainable_variables n).

Definition with_trainable (n : net) (vs : list vec) : net :=
  Net vs (non_trainable_variables n).

Record networks : Type := Networks {
  f_online : net;
  g_online : net;
  q_online : net;
  f_target : net;
  g_target : net;
}.

(** ** What the script prints and writes *)

Inductive line : Type :=
| InitOnline
| InitTarget
| ShapeOf (name : string) (rows cols : nat)
| NumParams (n : nat)
| UsingAdam (lr : Q)
| BatchLog (epoch epochs batch batches : nat) (loss : Q)
| WeightsSaved.

Inductive file : Type :=
| Weights (n : net)
| Text (lines : list Q).

Definition is_batch_log (l : line) : bool :=
  match l with
  | BatchLog _ _ _ _ _ => true
  | _ => false
  end.

Definition is_checkpoint (f : string * file) : bool :=
  match f.2 with
  | Weights _ => true
  | Text _ => false
  end.

(** ** Collaborators *)

Class Externals : Type := {
  (** Modelled from the spec: the data provider [datasets.CIFAR10], "
      [num_train_images: int]; [shuffle_training_data() -> None];
      [get_batch_pretraining(batch_id, batch_size) -> (x1, x2)]".  The
      provider's own state (order of the images, random generator) is the
      [dataset] value. *)
  images : Type;
  dataset : Type;
  CIFAR10 : nat → dataset;
  num_train_images : dataset → nat;
  shuffle_training_data : dataset → dataset;
  get_batch_pretraining : dataset → nat → nat → images * images;
  (** Modelled from the spec: the architectures of [models], "callable
      [(batch, training: bool) -> embedding]" for the encoder and "callable
      [(embedding, training: bool) -> projection]" for the projection head,
      which is also the class of the predictor; "two named linear sub-layers
      ([fc1], [fc2]) whose weight matrices are individually retrievable". *)
  encoder_call : net → images → bool → mat;
  head_call : net → mat → bool → mat;
  fc1_get_weights : net → list mat;
  fc2_get_weights : net → list mat;
  (** The freshly built and initialised networks, and the dummy batch
      [tf.random.normal((256, 32, 32, 3))] that builds them. *)
  initial_networks : networks;
  random_normal : images;
  (** Modelled from the spec: [losses.byol_loss], "[byol_loss(predictions,
      targets) -> scalar]". *)
  byol_loss : mat → mat → Q;
  (** TensorFlow: the Adam optimizer, differentiation of the computation a
      tape recorded with respect to a list of variables, the symmetric and
      the general eigensolver (eigenvalues as real and imaginary part), and
      the [CosineSimilarity(axis=0, reduction=NONE)] object. *)
  opt_state : Type;
  Adam : Q → opt_state;
  gradient : (list vec → Q) → list vec → list vec;
  apply_gradients : opt_state → list (vec * vec) → opt_state * list vec;
  eigh : mat → vec * mat;
  eigvals : mat → list (Q * Q);
  cosine_sim : mat → mat → vec;
}.

(** ** Training state *)

Section Program.
Context {E : Externals}.

(** Everything the loop of [main] reads and writes: the five networks and
    the optimizer it closes over, the data provider, [F], the three
    alignment logs, the loss log, the terminal and the files written. *)
Record state : Type := State {
  nets : networks;
  opt : opt_state;
  data : dataset;
  F : option mat;
  F_eigenval : list vec;
  allignment : list vec;
  wp_eigenval : list vec;
  losses : list Q;
  stdout : list line;
  files : list (string * file);
}.

(** A run of the loop either gets through or stops at an exception; the
    state it had reached is kept in both cases. *)
Inductive outcome : Type :=
| Done (st : state)
| Crashed (e : exn) (st : state).

Definition reached (o : outcome) : state :=
  match o with
  | Done st => st
  | Crashed _ st => st
  end.

Definition is_done (o : outcome) : bool :=
  match o with
  | Done _ => true
  | Crashed _ _ => false
  end.

Definition and_then (o : outcome) (k : state → outcome) : outcome :=
  match o with
  | Done st => k st
  | Crashed e st => Crashed e st
  end.

(** [for i in range(n): body] *)
Definition for_range (n : nat) (body : nat → state → outcome)
    (st : state) : outcome :=
  foldl (λ o i, and_then o (body i)) (Done st) (seq 0 n).

(** ** [train_step_pretraining] *)

(** What the step computes on the way; the names are the script's. *)
Record forward_pass : Type := Forward {
  z_target_1 : mat;
  z_target_2 : mat;
  z_online_1 : mat;
  z_online_2 : mat;
  p_online_1 : mat;
  p_online_2 : mat;
  p_online : mat;
  z_target : mat;
}.

(** The computation the gradient tape records, as a function of the three
    online networks.  The target projections were computed before the tape
    was opened: they enter as the constant [zt]. *)
Definition taped_loss (x1 x2 : images) (zt : mat) (f g q : net) : Q :=
  let h_online_1 := encoder_call f x1 true in
  let z_online_1 := head_call g h_online_1 true in
  let p_online_1 := head_call q z_online_1 true in
  let h_online_2 := encoder_call f x2 true in
  let z_online_2 := head_call g h_online_2 true in
  let p_online_2 := head_call q z_online_2 true in
  byol_loss (p_online_1 ++ p_online_2) zt.

Definition forward (nn : networks) (x1 x2 : images) : forward_pass :=
  let h_target_1 := encoder_call (f_target nn) x1 true in
  let z_target_1 := head_call (g_target nn) h_target_1 true in
  let h_target_2 := encoder_call (f_target nn) x2 true in
  let z_target_2 := head_call (g_target nn) h_target_2 true in
  let h_online_1 := encoder_call (f_online nn) x1 true in
  let z_online_1 := head_call (g_online nn) h_online_1 true in
  let p_online_1 := head_call (q_online nn) z_online_1 true in
  let h_online_2 := encoder_call (f_online nn) x2 true in
  let z_online_2 := head_call (g_online nn) h_online_2 true in
  let p_online_2 := head_call (q_online nn) z_online_2 true in
  Forward z_target_1 z_target_2 z_online_1 z_online_2 p_online_1 p_online_2
          (p_online_1 ++ p_online_2) (z_target_2 ++ z_target_1).

(** [grads = tape.gradient(loss, n.trainable_variables)] followed by
    [opt.apply_gradients(zip(grads, n.trainable_variables))], for the network
    [n] whose variables the recorded loss [L] is a function of. *)
Definition gradient_and_apply (o : opt_state) (L : net → Q) (n : net)
    : opt_state * net :=
  let grads := gradient (λ vs, L (with_trainable n vs)) (trainable_variables n) in
  let '(o', vs) := apply_gradients o (zip grads (trainable_variables n)) in
  (o', assign_trainable n vs).

(** The backward pass.  The tape is persistent and holds the values of the
    forward pass, so all three gradients are taken at the networks [nn] the
    step started from. *)
Definition backward (nn : networks) (o : opt_state) (x1 x2 : images)
    (zt : mat) : networks * opt_state :=
  let L := taped_loss x1 x2 zt in
  let '(o1, f') :=
    gradient_and_apply o (λ f, L f (g_online nn) (q_online nn)) (f_online nn) in
  let '(o2, g') :=
    gradient_and_apply o1 (λ g, L (f_online nn) g (q_online nn)) (g_online nn) in
  let '(o3, q') :=
    gradient_and_apply o2 (λ q, L (f_online nn) (g_online nn) q) (q_online nn) in
  (Networks f' g' q' (f_target nn) (g_target nn), o3).

Definition correlation (z_online_1 z_online_2 : mat) : mat :=
  let corr_1 := batch_matmul (expand_dims_2 z_online_1) (expand_dims_1 z_online_1) in
  let corr_2 := batch_matmul (expand_dims_2 z_online_2) (expand_dims_1 z_online_2) in
  let corr := corr_1 ++ corr_2 in
  reduce_mean_0 corr.

(** The step returns [(loss, F)] and leaves the networks and the optimizer
    updated. *)
Definition train_step_pretraining (nn : networks) (o : opt_state)
    (x1 x2 : images) (F : option mat)
    : result (Q * mat * networks * opt_state) :=
  let fw := forward nn x1 x2 in
  let loss := byol_loss (p_online fw) (z_target fw) in
  let '(nn', o') := backward nn o x1 x2 (z_target fw) in
  let corr := correlation (z_online_1 fw) (z_online_2 fw) in
  F' ← update_f F corr lambda_default;
  mret (loss, F', nn', o').

(** ** Target update *)

Definition beta : Q := 0.99.

(** [for i in ...: target[i] = beta * target[i] + (1 - beta) * online[i]] *)
Fixpoint ema_loop (b : Q) (online target : list vec) (ixs : list nat)
    : result (list vec) :=
  match ixs with
  | [] => Ok target
  | i :: ixs' =>
      t ← index target i;
      w ← index online i;
      v ← vadd (vscale b t) (vscale (1 - b) w);
      ema_loop b online (<[i:=v]> target) ixs'
  end.

(** The same loop as a recursion over the two lists, array by array: what
    [ema_loop] is shown to compute over [range(len(online))]. *)
Fixpoint blend_arrays (b : Q) (target online : list vec) {struct online}
    : result (list vec) :=
  match online with
  | [] => Ok target
  | w :: online' =>
      match target with
      | [] => Raise IndexError
      | t :: target' =>
          v ← vadd (vscale b t) (vscale (1 - b) w);
          r ← blend_arrays b target' online';
          Ok (v :: r)
      end
  end.

(** The four statements that move one target network towards its online
    counterpart. *)
Definition ema_update (b : Q) (target online : net) : result net :=
  let target_weights := get_weights target in
  let online_weights := get_weights online in
  ws ← ema_loop b online_weights target_weights (seq 0 (length online_weights));
  set_weights target ws.

(** ** Alignment tracker *)

Definition log_F_eigenval (st : state) (v : vec) : state :=
  State (nets st) (opt st) (data st) (F st) (F_eigenval st ++ [v])
        (allignment st) (wp_eigenval st) (losses st) (stdout st) (files st).

Definition log_wp_eigenval (st : state) (v : vec) : state :=
  State (nets st) (opt st) (data st) (F st) (F_eigenval st)
        (allignment st) (wp_eigenval st ++ [v]) (losses st) (stdout st)
        (files st).

Definition log_allignment (st : state) (v : vec) : state :=
  State (nets st) (opt st) (data st) (F st) (F_eigenval st)
        (allignment st ++ [v]) (wp_eigenval st) (losses st) (stdout st)
        (files st).

(** [tf.math.real] *)
Definition real (zs : list (Q * Q)) : vec := fst <$> zs.

(** The body of [if epoch_id % 5 == 0:].  [tf.linalg.eigh] cannot turn
    [None] into a tensor and raises. *)
Definition alignment_tracker (st : state) : outcome :=
  match F st with
  | None => Crashed ValueError st
  | Some Fm =>
      let '(eigval, eigvec) := eigh Fm in
      let st := log_F_eigenval st eigval in
      match index (fc1_get_weights (q_online (nets st))) 0 with
      | Raise e => Crashed e st
      | Ok w1 =>
          match index (fc2_get_weights (q_online (nets st))) 0 with
          | Raise e => Crashed e st
          | Ok w2 =>
              let wp := matmul w1 w2 in
              let wp := transpose wp in
              let wp_eigval := eigvals wp in
              let wp_eigval := real wp_eigval in
              let st := log_wp_eigenval st wp_eigval in
              let wp_v := matmul wp eigvec in
              let cosine := cosine_sim eigvec wp_v in
              Done (log_allignment st cosine)
          end
      end
  end.

(** ** [main] *)

Definition log_every : nat := 10.
Definition save_every : nat := 100.

Definition set_data (st : state) (d : dataset) : state :=
  State (nets st) (opt st) d (F st) (F_eigenval st) (allignment st)
        (wp_eigenval st) (losses st) (stdout st) (files st).

Definition set_nets (st : state) (nn : networks) : state :=
  State nn (opt st) (data st) (F st) (F_eigenval st) (allignment st)
        (wp_eigenval st) (losses st) (stdout st) (files st).

Definition set_f_target (st : state) (n : net) : state :=
  set_nets st (Networks (f_online (nets st)) (g_online (nets st))
                        (q_online (nets st)) n (g_target (nets st))).

Definition set_g_target (st : state) (n : net) : state :=
  set_nets st (Networks (f_online (nets st)) (g_online (nets st))
                        (q_online (nets st)) (f_target (nets st)) n).

(** [loss, F = train_step_pretraining(x1, x2, F)], with the networks and the
    optimizer as the step left them. *)
Definition after_step (st : state) (loss : Q) (F' : mat) (nn : networks)
    (o : opt_state) : state :=
  State nn o (data st) (Some F') (F_eigenval st) (allignment st)
        (wp_eigenval st) (losses st) (stdout st) (files st).

Definition append_loss (st : state) (loss : Q) : state :=
  State (nets st) (opt st) (data st) (F st) (F_eigenval st) (allignment st)
        (wp_eigenval st) (losses st ++ [loss]) (stdout st) (files st).

Definition print (st : state) (l : line) : state :=
  State (nets st) (opt st) (data st) (F st) (F_eigenval st) (allignment st)
        (wp_eigenval st) (losses st) (stdout st ++ [l]) (files st).

Definition write_file (st : state) (name : string) (f : file) : state :=
  State (nets st) (opt st) (data st) (F st) (F_eigenval st) (allignment st)
        (wp_eigenval st) (losses st) (stdout st) (files st ++ [(name, f)]).

(** The body of [for batch_id in range(batches_per_epoch):].  A shape error
    of the traced training step surfaces before the step has run. *)
Definition batch_body (epochs epoch_id batches_per_epoch batch_id : nat)
    (st : state) : outcome :=
  let '(x1, x2) := get_batch_pretraining (data st) batch_id 512 in
  match train_step_pretraining (nets st) (opt st) x1 x2 (F st) with
  | Raise e => Crashed e st
  | Ok (loss, F', nn, o) =>
      let st := after_step st loss F' nn o in
      let st := append_loss st loss in
      match ema_update beta (f_target (nets st)) (f_online (nets st)) with
      | Raise e => Crashed e st
      | Ok f_target' =>
          let st := set_f_target st f_target' in
          match ema_update beta (g_target (nets st)) (g_online (nets st)) with
          | Raise e => Crashed e st
          | Ok g_target' =>
              let st := set_g_target st g_target' in
              if ((batch_id + 1) mod log_every =? 0)%nat then
                Done (print st (BatchLog (epoch_id + 1) epochs (batch_id + 1)
                                         batches_per_epoch loss))
              else Done st
          end
      end
  end.

Definition checkpoint_name (epoch : nat) : string :=
  "f_online_" +:+ pretty epoch +:+ ".h5".

(** [if (epoch_id + 1) % save_every == 0:] and [if epoch_id % 5 == 0:], the
    two statements that close an epoch. *)
Definition checkpoint (epoch_id : nat) (st : state) : state :=
  if ((epoch_id + 1) mod save_every =? 0)%nat then
    print (write_file st (checkpoint_name (epoch_id + 1))
                      (Weights (f_online (nets st))))
          WeightsSaved
  else st.

Definition track (epoch_id : nat) (st : state) : outcome :=
  if (epoch_id mod 5 =? 0)%nat then alignment_tracker st else Done st.

(** The body of [for epoch_id in range(epochs):]. *)
Definition epoch_body (epochs batches_per_epoch epoch_id : nat)
    (st : state) : outcome :=
  let st := set_data st (shuffle_training_data (data st)) in
  and_then
    (for_range batches_per_epoch
       (batch_body epochs epoch_id batches_per_epoch) st)
    (λ st, track epoch_id (checkpoint epoch_id st)).

Definition shape_line (name : string) (M : mat) : line :=
  ShapeOf name (length M) (width M).

(** The state at the head of the epoch loop: empty logs, [F = None], the
    data provider, the built networks, the optimizer, and what the set-up
    printed. *)
Definition initial_state (num_samples : nat) : state :=
  let data := CIFAR10 num_samples in
  let nn := initial_networks in
  let x := random_normal in
  let h := encoder_call (f_online nn) x false in
  let z := head_call (g_online nn) h false in
  let p := head_call (q_online nn) z false in
  let h' := encoder_call (f_target nn) x false in
  let z' := head_call (g_target nn) h' false in
  let num_params_f :=
    sum_list (length <$> trainable_variables (f_online nn)) in
  let lr := 1e-3 * 512 / 512 in
  State nn (Adam lr) data None [] [] [] []
        [InitOnline; shape_line "h" h; shape_line "z" z; shape_line "p" p;
         InitTarget; shape_line "h" h'; shape_line "z" z';
         NumParams num_params_f; UsingAdam lr]
        [].

Definition main (epochs num_samples : nat) : outcome :=
  let st := initial_state num_samples in
  let batches_per_epoch := (num_train_images (data st) / 512)%nat in
  and_then
    (for_range epochs (epoch_body epochs batches_per_epoch) st)
    (λ st, Done (write_file st "losses.txt" (Text (losses st)))).

(** [return F_eigenval, allignment, wp_eigenval] *)
Definition returned (st : state) : list vec * list vec * list vec :=
  (F_eigenval st, allignment st, wp_eigenval st).

(** ** Predicates the properties are stated with *)

(** Two networks of one architecture: as many weight arrays, of the same
    sizes, in the same order. *)
Definition mirror (target online : net) : Prop :=
  length <$> get_weights target = length <$> get_weights online.

(** [new] is [a * old + c * online], array by array and element by
    element. *)
Definition blended (a c : Q) (old online new : list vec) : Prop :=
  ∀ i t, old !! i = Some t →
    ∃ w, online !! i = Some w ∧ length t = length w ∧
         new !! i = Some (zip_with (λ x y, a * x + c * y) t w).

Definition F_symmetric (F : option mat) : Prop :=
  match F with
  | None => True
  | Some M => symmetric M
  end.

(** The target projections as the specification words them, "in
    inference-disabled-dropout mode": the same two calls with
    [training=False]. *)
Definition inference_mode_projection (nn : networks) (x : images) : mat :=
  head_call (g_target nn) (encoder_call (f_target nn) x false) false.

End Program.

(** ** A small instance

    Two-feature images, one-weight linear layers whose output is doubled
    outside training mode, unit gradients, a plain descent step that counts
    its calls.  It serves to run the definitions above on concrete data. *)
Module Small.

Definition layer_scale (n : net) (training : bool) : Q :=
  hd 1 (hd [] (trainable_variables n)) * (if training then 1 else 2).

Definition layer (n : net) (x : mat) (training : bool) : mat :=
  mscale (layer_scale n training) x.

Definition descend (gv : vec * vec) : vec :=
  zip_with (λ g v, v - g) gv.1 gv.2.

Definition ext : Externals := {|
  images := mat;
  dataset := nat * nat;
  CIFAR10 := λ num_samples, (num_samples, 0%nat);
  num_train_images := fst;
  shuffle_training_data := λ d, (d.1, S d.2);
  get_batch_pretraining := λ d batch_id batch_size,
    (replicate batch_size [1; 2], replicate batch_size [2; inject_Z (Z.of_nat batch_id)]);
  encoder_call := layer;
  head_call := layer;
  fc1_get_weights := λ n, [[[1; 2]; [0; 1]]];
  fc2_get_weights := λ n, [[[1; 0]; [1; 1]]];
  initial_networks :=
    Networks (Net [[1; 0]] [[4]]) (Net [[2]] []) (Net [[3]] [])
             (Net [[5; 0]] [[8]]) (Net [[7]] []);
  random_normal := [[1; 1]];
  byol_loss := λ p z, - foldr Qplus 0 (zip_with dot p z);
  opt_state := nat;
  Adam := λ lr, 0%nat;
  gradient := λ L vs, (λ v : vec, (λ _, 1) <$> v) <$> vs;
  apply_gradients := λ o gvs, (S o, descend <$> gvs);
  eigh := λ M, (col 0 M, M);
  eigvals := λ M, (λ r : vec, (hd 0 r, 0)) <$> M;
  cosine_sim := λ A B, zip_with dot A B;
|}.

(** The state at the head of the first epoch of a run on 512 samples, its
    first batch, and what the first training step computes from them. *)
Definition st0 : @state ext := @initial_state ext 512.
Definition x0 : mat * mat := @get_batch_pretraining ext (data st0) 0 512.
Definition fw0 : forward_pass := @forward ext (nets st0) x0.1 x0.2.
Definition loss0 : Q := @byol_loss ext (p_online fw0) (z_target fw0).
Definition corr0 : mat := correlation (z_online_1 fw0) (z_online_2 fw0).
Definition step0 : networks * nat :=
  @backward ext (nets st0) (opt st0) x0.1 x0.2 (z_target fw0).

(** The state after that batch. *)
Definition st1 : @state ext := reached (@batch_body ext 1 0 1 0 st0).

(** The states in which a run of one epoch on 512 samples and a run of three
    epochs on 100 samples end. *)
Definition final : @state ext := reached (@main ext 1 512).
Definition stopped : @state ext := reached (@main ext 3 100).

End Small.

(** ** An instance at rest

    The same two-feature images and one-weight layers, with online and target
    networks that start equal and gradients that vanish, so that the weights
    keep their value and a run of many batches stays cheap to evaluate. *)
Module Steady.

Definition weight (n : net) : Q :=
  Qred (hd 1 (hd [] (trainable_variables n))).

Definition layer (n : net) (x : mat) (training : bool) : mat :=
  mscale (weight n) x.

Definition ext : Externals := {|
  images := mat;
  dataset := nat * nat;
  CIFAR10 := λ num_samples, (num_samples, 0%nat);
  num_train_images := fst;
  shuffle_training_data := λ d, (d.1, S d.2);
  get_batch_pretraining := λ d batch_id batch_size,
    (replicate batch_size [1; 2], replicate batch_size [2; inject_Z (Z.of_nat batch_id)]);
  encoder_call := layer;
  head_call := layer;
  fc1_get_weights := λ n, [[[1; 2]; [0; 1]]];
  fc2_get_weights := λ n, [[[1; 0]; [1; 1]]];
  initial_networks :=
    Networks (Net [[1; 0]] [[4]]) (Net [[1]] []) (Net [[1]] [])
             (Net [[1; 0]] [[4]]) (Net [[1]] []);
  random_normal := [[1; 1]];
  byol_loss := λ p z, - foldr Qplus 0 (zip_with dot p z);
  opt_state := nat;
  Adam := λ lr, 0%nat;
  gradient := λ L vs, (λ v : vec, (λ _, 0) <$> v) <$> vs;
  apply_gradients := λ o gvs, (S o, Small.descend <$> gvs);
  eigh := λ M, (col 0 M, M);
  eigvals := λ M, (λ r : vec, (hd 0 r, 0)) <$> M;
  cosine_sim := λ A B, zip_with dot A B;
|}.

(** The states in which a run of a hundred epochs of one batch and a run of
    one epoch of ten batches end. *)
Definition century : @state ext := reached (@main ext 100 512).
Definition ten_batches : @state ext := reached (@main ext 1 (10 * 512)).

End Steady.

(** * Properties *)

(** ** Tensor algebra *)

Lemma Qmult_comm_eq (a b : Q) : a * b = b * a.
Proof.
  destruct a as [an ad], b as [bn bd]. unfold Qmult; simpl.
  f_equal; [apply Z.mul_comm | apply Pos.mul_comm].
Qed.

Lemma dot_comm (u v : vec) : dot u v = dot v u.
Proof.
  unfold dot. f_equal. revert v.
  induction u as [|a u IH]; intros [|b v]; simpl; try reflexivity.
  by rewrite Qmult_comm_eq, IH.
Qed.

Lemma entry_zip_with (f : Q → Q → Q) (A B : mat) (i j : nat) :
  entry (zip_with (zip_with f) A B) i j =
    a ← entry A i j; b ← entry B i j; Some (f a b).
Proof.
  unfold entry. rewrite lookup_zip_with.
  destruct (A !! i) as [ra|]; simpl; [|done].
  destruct (B !! i) as [rb|]; simpl.
  - by rewrite lookup_zip_with.
  - by destruct (ra !! j).
Qed.

Lemma entry_fmap (f : Q → Q) (M : mat) (i j : nat) :
  entry ((λ r : vec, f <$> r) <$> M) i j = f <$> entry M i j.
Proof.
  unfold entry. rewrite list_lookup_fmap.
  destruct (M !! i) as [r|]; simpl; [|done].
  by rewrite list_lookup_fmap.
Qed.

Lemma symmetric_nil : symmetric [].
Proof. split; [constructor | done]. Qed.

Lemma symmetric_zip_with (f : Q → Q → Q) (A B : mat) :
  symmetric A → symmetric B → symmetric (zip_with (zip_with f) A B).
Proof.
  intros [HsA HeA] [HsB HeB]. split.
  - rewrite length_zip_with. apply Forall_lookup_2. intros k r Hk.
    apply lookup_zip_with_Some in Hk as (ra & rb & -> & Ha & Hb).
    rewrite length_zip_with.
    by rewrite (Forall_lookup_1 _ _ _ _ HsA Ha), (Forall_lookup_1 _ _ _ _ HsB Hb).
  - intros i j. by rewrite !entry_zip_with, HeA, HeB.
Qed.

Lemma symmetric_fmap (f : Q → Q) (M : mat) :
  symmetric M → symmetric ((λ r : vec, f <$> r) <$> M).
Proof.
  intros [Hs He]. split.
  - rewrite length_fmap. apply Forall_fmap.
    eapply Forall_impl; [exact Hs|]. intros r Hr; simpl. by rewrite length_fmap.
  - intros i j. by rewrite !entry_fmap, He.
Qed.

Lemma symmetric_mscale (c : Q) (M : mat) : symmetric M → symmetric (mscale c M).
Proof. apply (symmetric_fmap (Qmult c)). Qed.

Lemma symmetric_mdiv (M : mat) (n : nat) : symmetric M → symmetric (mdiv M n).
Proof. apply (symmetric_fmap (λ x, x / inject_Z (Z.of_nat n))). Qed.

Lemma symmetric_msum (Ms : list mat) : Forall symmetric Ms → symmetric (msum Ms).
Proof.
  destruct Ms as [|M Ms]; [intros _; apply symmetric_nil|].
  intros H. apply Forall_cons in H as [HM HMs]. simpl.
  revert M HM. induction HMs as [|N Ms HN _ IH]; intros M HM; simpl; [done|].
  apply IH. by apply symmetric_zip_with.
Qed.

(** The product of a column with itself as a row. *)
Lemma outer_product_eq (r : vec) :
  matmul ((λ a, [a]) <$> r) [r] =
    (λ a, (λ j, dot [a] [nth j r 0]) <$> seq 0 (length r)) <$> r.
Proof.
  unfold matmul, transpose, width; simpl. rewrite <- list_fmap_compose.
  apply list_fmap_ext. intros _ a _; simpl.
  rewrite <- list_fmap_compose. by apply list_fmap_ext.
Qed.

Lemma entry_outer_product (r : vec) (i j : nat) :
  entry (matmul ((λ a, [a]) <$> r) [r]) i j =
    a ← r !! i; b ← r !! j; Some (a * b + 0).
Proof.
  rewrite outer_product_eq. unfold entry. rewrite list_lookup_fmap.
  destruct (r !! i) as [a|]; simpl; [|done].
  rewrite list_lookup_fmap.
  destruct (r !! j) as [b|] eqn:Hj; simpl.
  - rewrite lookup_seq_lt by (by eapply lookup_lt_Some). simpl.
    by rewrite (nth_lookup_Some _ _ _ _ Hj).
  - by rewrite lookup_seq_ge by (by apply lookup_ge_None).
Qed.

Lemma symmetric_outer_product (r : vec) :
  symmetric (matmul ((λ a, [a]) <$> r) [r]).
Proof.
  split.
  - rewrite outer_product_eq, length_fmap. apply Forall_fmap, Forall_forall.
    intros a _; simpl. by rewrite length_fmap, length_seq.
  - intros i j. rewrite !entry_outer_product.
    destruct (r !! i) as [a|], (r !! j) as [b|]; simpl; try done.
    by rewrite Qmult_comm_eq.
Qed.

Lemma batch_outer_products (z : mat) :
  batch_matmul (expand_dims_2 z) (expand_dims_1 z) =
    (λ r : vec, matmul ((λ a, [a]) <$> r) [r]) <$> z.
Proof.
  unfold batch_matmul, expand_dims_2, expand_dims_1.
  by rewrite zip_with_fmap_l, zip_with_fmap_r, zip_with_diag.
Qed.

Lemma madd_Ok (A B R : mat) :
  madd A B = Ok R → R = zip_with (zip_with Qplus) A B ∧ mshape A = mshape B.
Proof. unfold madd. case_decide; [|done]. by intros [= <-]. Qed.

Lemma symmetric_update_f (F : option mat) (corr R : mat) (l : Q) :
  F_symmetric F → symmetric corr → update_f F corr l = Ok R → symmetric R.
Proof.
  destruct F as [M|]; simpl; intros HF Hc H.
  - apply madd_Ok in H as [-> _].
    by apply symmetric_zip_with; apply symmetric_mscale.
  - by injection H as <-.
Qed.

(** ** Target update *)

Lemma vadd_blend (b : Q) (t w : vec) :
  length t = length w →
  vadd (vscale b t) (vscale (1 - b) w) =
    Ok (zip_with (λ x y, b * x + (1 - b) * y) t w).
Proof.
  intros H. unfold vadd, vscale. rewrite !length_fmap.
  case_decide; [|done]. by rewrite zip_with_fmap_l, zip_with_fmap_r.
Qed.

Lemma mirror_lookup (ts ws : list vec) (i : nat) (t : vec) :
  length <$> ts = length <$> ws → ts !! i = Some t →
  ∃ w, ws !! i = Some w ∧ length t = length w.
Proof.
  intros H Ht.
  assert ((length <$> ws) !! i = Some (length t)) as Hw
    by (by rewrite <- H, list_lookup_fmap, Ht).
  rewrite list_lookup_fmap in Hw.
  destruct (ws !! i) as [w|]; simplify_eq/=. eauto.
Qed.

(** After the indices below [k] the first [k] arrays are blended and the
    others still the target's own. *)
Lemma ema_loop_from (b : Q) (online target : list vec) (m k : nat) :
  length <$> target = length <$> online →
  (k + m)%nat = length online →
  ema_loop b online
    (zip_with (zip_with (λ x y, b * x + (1 - b) * y))
       (take k target) (take k online) ++ drop k target)
    (seq k m) =
  Ok (zip_with (zip_with (λ x y, b * x + (1 - b) * y)) target online).
Proof.
  intros Hm. assert (length target = length online) as Hlen
    by (by rewrite <- (length_fmap length target), Hm, length_fmap).
  revert k. induction m as [|m IH]; intros k Hk; simpl.
  - rewrite Nat.add_0_r in Hk.
    by rewrite !firstn_all2, skipn_all2, app_nil_r by lia.
  - set (bl := zip_with (λ x y, b * x + (1 - b) * y)).
    assert (length (zip_with bl (take k target) (take k online)) = k) as Hp.
    { rewrite length_zip_with, !length_take. lia. }
    destruct (lookup_lt_is_Some_2 target k) as [t Ht]; [lia|].
    destruct (mirror_lookup _ _ _ _ Hm Ht) as (w & Hw & Htw).
    unfold index.
    rewrite lookup_app_r, Hp, Nat.sub_diag, lookup_drop, Nat.add_0_r, Ht, Hw by lia.
    simpl.
    rewrite (vadd_blend _ _ _ Htw). simpl.
    replace (<[k:=bl t w]> (zip_with bl (take k target) (take k online) ++ drop k target))
      with (zip_with bl (take (S k) target) (take (S k) online) ++ drop (S k) target).
    + apply IH. lia.
    + rewrite insert_app_r_alt, Hp, Nat.sub_diag, (drop_S _ _ _ Ht) by lia.
      rewrite (take_S_r _ _ _ Ht), (take_S_r _ _ _ Hw).
      rewrite zip_with_app by (rewrite !length_take; lia). simpl.
      by rewrite <- app_assoc.
Qed.

Lemma ema_update_mirror (b : Q) (target online : net) :
  mirror target online →
  ∃ target',
    ema_update b target online = Ok target' ∧
    get_weights target' =
      zip_with (zip_with (λ x y, b * x + (1 - b) * y))
        (get_weights target) (get_weights online) ∧
    length (trainable_variables target') = length (trainable_variables target).
Proof.
  intros Hm. unfold ema_update.
  pose proof (ema_loop_from b (get_weights online) (get_weights target)
                (length (get_weights online)) 0 Hm eq_refl) as H.
  simpl in H. rewrite drop_0 in H. rewrite H. simpl.
  set (ws := zip_with _ _ _).
  assert (length <$> ws = length <$> get_weights target) as Hs.
  { apply list_eq. intros i. unfold ws.
    rewrite !list_lookup_fmap, lookup_zip_with.
    destruct (get_weights target !! i) as [t|] eqn:Ht; simpl; [|done].
    destruct (mirror_lookup _ _ _ _ Hm Ht) as (w & -> & Htw). simpl.
    rewrite length_zip_with. f_equal. lia. }
  unfold set_weights. case_decide; [|done].
  eexists. split; [done|]. unfold get_weights at 1; simpl.
  rewrite take_drop. split; [done|].
  rewrite length_take.
  assert (length ws = length (get_weights target)) as Hl
    by (by rewrite <- (length_fmap length ws), Hs, length_fmap).
  rewrite Hl. unfold get_weights. rewrite length_app. lia.
Qed.

Lemma blended_zip_with (b : Q) (old online : list vec) :
  length <$> old = length <$> online →
  blended b (1 - b) old online
    (zip_with (zip_with (λ x y, b * x + (1 - b) * y)) old online).
Proof.
  intros Hm i t Ht. destruct (mirror_lookup _ _ _ _ Hm Ht) as (w & Hw & Htw).
  exists w. split; [done|]. split; [done|].
  by rewrite lookup_zip_with, Ht, Hw.
Qed.

(** ** [update_f] *)

(** Entry by entry, on matrices of one shape. *)
Lemma update_f_entries (F_prev corr R : mat) (i j : nat) :
  update_f (Some F_prev) corr lambda_default = Ok R →
  entry R i j =
    a ← entry F_prev i j; c ← entry corr i j; Some (0.8 * a + 0.2 * c).
Proof.
  unfold update_f. intros H.
  apply madd_Ok in H as [-> _]. unfold mscale, vscale, lambda_default.
  rewrite entry_zip_with.
  rewrite (entry_fmap (Qmult 0.8)), (entry_fmap (Qmult 0.2)).
  by destruct (entry F_prev i j), (entry corr i j).
Qed.




Section Properties.
Context {E : Externals}.

(** ** Loops *)

Lemma crashed_absorbs (body : nat → state → outcome) (e : exn) (st : state)
    (ixs : list nat) :
  foldl (λ o i, and_then o (body i)) (Crashed e st) ixs = Crashed e st.
Proof. induction ixs as [|i ixs IH]; simpl; [done | exact IH]. Qed.

Lemma for_range_S (n : nat) (body : nat → state → outcome) (st : state) :
  for_range (S n) body st = and_then (for_range n body st) (body n).
Proof. unfold for_range. by rewrite seq_S, foldl_app. Qed.

Lemma for_range_0 (body : nat → state → outcome) (st : state) :
  for_range 0 body st = Done st.
Proof. reflexivity. Qed.

Lemma for_range_first_crash (n : nat) (body : nat → state → outcome)
    (st st' : state) (e : exn) :
  (0 < n)%nat → body 0%nat st = Crashed e st' →
  for_range n body st = Crashed e st'.
Proof.
  intros Hn H. destruct n as [|n]; [lia|].
  unfold for_range. simpl. rewrite H. apply crashed_absorbs.
Qed.

Lemma for_range_invariant (P : state → Prop) (n : nat)
    (body : nat → state → outcome) (st : state) :
  (∀ i s, P s → P (reached (body i s))) → P st →
  P (reached (for_range n body st)).
Proof.
  intros Hb H0. induction n as [|n IH]; [done|].
  rewrite for_range_S. destruct (for_range n body st) as [s|e s]; simpl in *.
  - by apply Hb.
  - done.
Qed.

(** ** The training step *)

Lemma train_step_Ok (nn nn' : networks) (o o' : opt_state) (x1 x2 : images)
    (F : option mat) (loss : Q) (F' : mat) :
  train_step_pretraining nn o x1 x2 F = Ok (loss, F', nn', o') →
  loss = byol_loss (p_online (forward nn x1 x2)) (z_target (forward nn x1 x2)) ∧
  backward nn o x1 x2 (z_target (forward nn x1 x2)) = (nn', o') ∧
  update_f F (correlation (z_online_1 (forward nn x1 x2))
                          (z_online_2 (forward nn x1 x2))) lambda_default
    = Ok F'.
Proof.
  unfold train_step_pretraining.
  destruct (backward nn o x1 x2 _) as [nn1 o1].
  destruct (update_f F _ lambda_default) as [F1|e]; simpl; [|done].
  by intros [= <- <- <- <-].
Qed.

Lemma train_step_first (nn : networks) (o : opt_state) (x1 x2 : images) :
  train_step_pretraining nn o x1 x2 None =
    Ok (byol_loss (p_online (forward nn x1 x2)) (z_target (forward nn x1 x2)),
        correlation (z_online_1 (forward nn x1 x2))
                    (z_online_2 (forward nn x1 x2)),
        (backward nn o x1 x2 (z_target (forward nn x1 x2))).1,
        (backward nn o x1 x2 (z_target (forward nn x1 x2))).2).
Proof.
  unfold train_step_pretraining. by destruct (backward nn o x1 x2 _).
Qed.

Lemma backward_targets (nn : networks) (o : opt_state) (x1 x2 : images)
    (zt : mat) :
  f_target (backward nn o x1 x2 zt).1 = f_target nn ∧
  g_target (backward nn o x1 x2 zt).1 = g_target nn.
Proof.
  unfold backward.
  destruct (gradient_and_apply o _ _) as [o1 f'].
  destruct (gradient_and_apply o1 _ _) as [o2 g'].
  destruct (gradient_and_apply o2 _ _) as [o3 q'].
  done.
Qed.

Lemma symmetric_correlation (z1 z2 : mat) : symmetric (correlation z1 z2).
Proof.
  unfold correlation, reduce_mean_0.
  apply symmetric_mdiv, symmetric_msum.
  rewrite !batch_outer_products. apply Forall_app.
  split; apply Forall_fmap, Forall_forall; intros r _;
    apply symmetric_outer_product.
Qed.

(** ** One batch *)

(** The state a batch leaves when nothing raises. *)
Lemma batch_body_run (epochs epoch_id batches_per_epoch batch_id : nat)
    (st : state) (loss : Q) (F' : mat) (nn : networks) (o : opt_state)
    (ft gt : net) :
  train_step_pretraining (nets st) (opt st)
    (get_batch_pretraining (data st) batch_id 512).1
    (get_batch_pretraining (data st) batch_id 512).2 (F st)
    = Ok (loss, F', nn, o) →
  ema_update beta (f_target nn) (f_online nn) = Ok ft →
  ema_update beta (g_target nn) (g_online nn) = Ok gt →
  batch_body epochs epoch_id batches_per_epoch batch_id st =
    Done (State (Networks (f_online nn) (g_online nn) (q_online nn) ft gt) o
            (data st) (Some F') (F_eigenval st) (allignment st)
            (wp_eigenval st) (losses st ++ [loss])
            (stdout st ++
               if ((batch_id + 1) mod log_every =? 0)%nat
               then [BatchLog (epoch_id + 1) epochs (batch_id + 1)
                              batches_per_epoch loss]
               else [])
            (files st)).
Proof.
  unfold batch_body.
  destruct (get_batch_pretraining (data st) batch_id 512) as [x1 x2]; simpl.
  intros -> Hf Hg. simpl. rewrite Hf; simpl. rewrite Hg; simpl.
  destruct (_ =? _)%nat; simpl; unfold print, set_g_target, set_nets; simpl.
  - done.
  - by rewrite app_nil_r.
Qed.

Lemma batch_body_Done (epochs epoch_id batches_per_epoch batch_id : nat)
    (st st' : state) :
  batch_body epochs epoch_id batches_per_epoch batch_id st = Done st' →
  ∃ loss F' nn o,
    train_step_pretraining (nets st) (opt st)
      (get_batch_pretraining (data st) batch_id 512).1
      (get_batch_pretraining (data st) batch_id 512).2 (F st)
      = Ok (loss, F', nn, o) ∧
    ema_update beta (f_target nn) (f_online nn) = Ok (f_target (nets st')) ∧
    ema_update beta (g_target nn) (g_online nn) = Ok (g_target (nets st')) ∧
    f_online (nets st') = f_online nn ∧
    g_online (nets st') = g_online nn ∧
    q_online (nets st') = q_online nn ∧
    opt st' = o ∧ F st' = Some F' ∧ losses st' = losses st ++ [loss].
Proof.
  unfold batch_body.
  destruct (get_batch_pretraining (data st) batch_id 512) as [x1 x2]; simpl.
  destruct (train_step_pretraining _ _ x1 x2 _) as [[[[loss F'] nn] o]|e];
    [|done]. simpl.
  destruct (ema_update beta (f_target nn) (f_online nn)) as [ft|e] eqn:Hf;
    [|done]. simpl.
  destruct (ema_update beta (g_target nn) (g_online nn)) as [gt|e] eqn:Hg;
    [|done]. simpl.
  intros H. exists loss, F', nn, o.
  destruct (_ =? _)%nat; injection H as <-; simpl; by repeat split.
Qed.

(** Whatever a batch does, it leaves [F] as it was or as [update_f] made
    it. *)
Lemma batch_body_F (epochs epoch_id batches_per_epoch batch_id : nat)
    (st : state) :
  let st' := reached (batch_body epochs epoch_id batches_per_epoch batch_id st) in
  F st' = F st ∨
  ∃ z1 z2 F', update_f (F st) (correlation z1 z2) lambda_default = Ok F' ∧
              F st' = Some F'.
Proof.
  unfold batch_body.
  destruct (get_batch_pretraining (data st) batch_id 512) as [x1 x2]; simpl.
  destruct (train_step_pretraining _ _ x1 x2 _) as [[[[loss F'] nn] o]|e] eqn:Hs;
    [|by left]. simpl.
  apply train_step_Ok in Hs as (_ & _ & HF).
  right. eexists _, _, F'. split; [exact HF|].
  destruct (ema_update beta (f_target nn) (f_online nn)) as [ft|e]; [|done].
  simpl.
  destruct (ema_update beta (g_target nn) (g_online nn)) as [gt|e]; [|done].
  simpl. by destruct (_ =? _)%nat.
Qed.

(** C2: when a batch has run, every weight array of the target encoder and
    of the target projector is [0.99 * old + 0.01 * online], element by
    element, the arrays of the two networks paired by position; the online
    values are those the training step has just produced, and the three
    online networks, the predictor among them, are not blended. *)
Theorem target_networks_follow_online
    (epochs epoch_id batches_per_epoch batch_id : nat) (st : state)
    (loss : Q) (F' : mat) (nn : networks) (o : opt_state) :
  train_step_pretraining (nets st) (opt st)
    (get_batch_pretraining (data st) batch_id 512).1
    (get_batch_pretraining (data st) batch_id 512).2 (F st)
    = Ok (loss, F', nn, o) →
  mirror (f_target (nets st)) (f_online nn) →
  mirror (g_target (nets st)) (g_online nn) →
  ∃ st', batch_body epochs epoch_id batches_per_epoch batch_id st = Done st' ∧
    blended 0.99 0.01 (get_weights (f_target (nets st))) (get_weights (f_online nn))
                 (get_weights (f_target (nets st'))) ∧
    blended 0.99 0.01 (get_weights (g_target (nets st))) (get_weights (g_online nn))
                 (get_weights (g_target (nets st'))) ∧
    length (get_weights (f_target (nets st'))) =
      length (get_weights (f_target (nets st))) ∧
    length (get_weights (g_target (nets st'))) =
      length (get_weights (g_target (nets st))) ∧
    f_online (nets st') = f_online nn ∧
    g_online (nets st') = g_online nn ∧
    q_online (nets st') = q_online nn.
Proof.
  intros Hs Hf Hg.
  pose proof (train_step_Ok _ _ _ _ _ _ _ _ _ Hs) as (_ & Hb & _).
  pose proof (backward_targets (nets st) (opt st)
    (get_batch_pretraining (data st) batch_id 512).1
    (get_batch_pretraining (data st) batch_id 512).2
    (z_target (forward (nets st)
       (get_batch_pretraining (data st) batch_id 512).1
       (get_batch_pretraining (data st) batch_id 512).2))) as [Etf Etg].
  rewrite Hb in Etf, Etg; simpl in Etf, Etg.
  rewrite <- Etf in Hf. rewrite <- Etg in Hg.
  destruct (ema_update_mirror beta _ _ Hf) as (ft & Hft & Wf & _).
  destruct (ema_update_mirror beta _ _ Hg) as (gt & Hgt & Wg & _).
  eexists. split; [by eapply batch_body_run|]. simpl.
  rewrite Wf, Wg, <- Etf, <- Etg.
  repeat split; try done.
  - by apply (blended_zip_with beta).
  - by apply (blended_zip_with beta).
  - rewrite length_zip_with.
    pose proof (f_equal length Hf) as Hl. rewrite !length_fmap in Hl. lia.
  - rewrite length_zip_with.
    pose proof (f_equal length Hg) as Hl. rewrite !length_fmap in Hl. lia.
Qed.

(** C3, as amended: the step computes the target projections of both views
    with [training=True], and before the tape is opened: the loss the three
    gradients are taken of has these projections as a constant, so that what
    the gradient applications make of the online networks and of the
    optimizer depends on the target networks through these projections
    alone. *)
Theorem target_branch_in_training_mode_off_tape (nn : networks)
    (o : opt_state) (x1 x2 : images) :
  z_target_1 (forward nn x1 x2) =
    head_call (g_target nn) (encoder_call (f_target nn) x1 true) true ∧
  z_target_2 (forward nn x1 x2) =
    head_call (g_target nn) (encoder_call (f_target nn) x2 true) true ∧
  (∀ (zt : mat) (ft gt : net),
     let nn2 := Networks (f_online nn) (g_online nn) (q_online nn) ft gt in
     let r := backward nn o x1 x2 zt in
     let r2 := backward nn2 o x1 x2 zt in
     f_online r2.1 = f_online r.1 ∧ g_online r2.1 = g_online r.1 ∧
     q_online r2.1 = q_online r.1 ∧ r2.2 = r.2).
Proof.
  split; [done|]. split; [done|]. intros zt ft gt. simpl.
  unfold backward; simpl.
  destruct (gradient_and_apply o _ _) as [o1 f'].
  destruct (gradient_and_apply o1 _ _) as [o2 g'].
  destruct (gradient_and_apply o2 _ _) as [o3 q'].
  done.
Qed.

(** C4: the loss of a step is [byol_loss] of the predictions
    [[p_online_1, p_online_2]] against the targets
    [[z_target_2, z_target_1]]: the prediction of each view meets the target
    projection of the other view. *)
Theorem loss_pairs_each_view_with_the_other (nn nn' : networks)
    (o o' : opt_state) (x1 x2 : images) (F : option mat) (loss : Q) (F' : mat) :
  train_step_pretraining nn o x1 x2 F = Ok (loss, F', nn', o') →
  let p_online_1 :=
    head_call (q_online nn)
      (head_call (g_online nn) (encoder_call (f_online nn) x1 true) true) true in
  let p_online_2 :=
    head_call (q_online nn)
      (head_call (g_online nn) (encoder_call (f_online nn) x2 true) true) true in
  let z_target_1 :=
    head_call (g_target nn) (encoder_call (f_target nn) x1 true) true in
  let z_target_2 :=
    head_call (g_target nn) (encoder_call (f_target nn) x2 true) true in
  loss = byol_loss (p_online_1 ++ p_online_2) (z_target_2 ++ z_target_1).
Proof. intros H. by apply train_step_Ok in H as (-> & _). Qed.

(** C5: the training step returns with the target encoder and the target
    projector exactly as it found them; in the batch that contains it they
    then become what the update that follows the step computes from them. *)
Theorem train_step_leaves_target_networks
    (epochs epoch_id batches_per_epoch batch_id : nat) (st : state)
    (loss : Q) (F' : mat) (nn : networks) (o : opt_state) :
  train_step_pretraining (nets st) (opt st)
    (get_batch_pretraining (data st) batch_id 512).1
    (get_batch_pretraining (data st) batch_id 512).2 (F st)
    = Ok (loss, F', nn, o) →
  f_target nn = f_target (nets st) ∧
  g_target nn = g_target (nets st) ∧
  ∀ st', batch_body epochs epoch_id batches_per_epoch batch_id st = Done st' →
    ema_update beta (f_target (nets st)) (f_online nn)
      = Ok (f_target (nets st')) ∧
    ema_update beta (g_target (nets st)) (g_online nn)
      = Ok (g_target (nets st')).
Proof.
  intros Hs.
  pose proof (train_step_Ok _ _ _ _ _ _ _ _ _ Hs) as (_ & Hb & _).
  pose proof (backward_targets (nets st) (opt st)
    (get_batch_pretraining (data st) batch_id 512).1
    (get_batch_pretraining (data st) batch_id 512).2
    (z_target (forward (nets st)
       (get_batch_pretraining (data st) batch_id 512).1
       (get_batch_pretraining (data st) batch_id 512).2))) as [Etf Etg].
  rewrite Hb in Etf, Etg; simpl in Etf, Etg.
  split; [done|]. split; [done|]. intros st' Hd.
  apply batch_body_Done in Hd as (l & F1 & nn1 & o1 & Hs1 & Hf & Hg & _).
  rewrite Hs in Hs1. injection Hs1 as <- <- <- <-.
  by rewrite <- Etf, <- Etg.
Qed.

(** C9: the online networks and the optimizer a step leaves are those of
    three [apply_gradients] calls in a row on the one optimizer: the first
    with the gradients and variables of the encoder only, the second with
    those of the projector, the third with those of the predictor, all three
    gradients being taken of the loss the tape recorded. *)
Theorem three_gradient_applications (nn nn' : networks) (o o' : opt_state)
    (x1 x2 : images) (F : option mat) (loss : Q) (F' : mat) :
  train_step_pretraining nn o x1 x2 F = Ok (loss, F', nn', o') →
  let L := taped_loss x1 x2 (z_target (forward nn x1 x2)) in
  let f := f_online nn in
  let g := g_online nn in
  let q := q_online nn in
  let grads_f :=
    gradient (λ vs, L (with_trainable f vs) g q) (trainable_variables f) in
  let a1 := apply_gradients o (zip grads_f (trainable_variables f)) in
  let grads_g :=
    gradient (λ vs, L f (with_trainable g vs) q) (trainable_variables g) in
  let a2 := apply_gradients a1.1 (zip grads_g (trainable_variables g)) in
  let grads_q :=
    gradient (λ vs, L f g (with_trainable q vs)) (trainable_variables q) in
  let a3 := apply_gradients a2.1 (zip grads_q (trainable_variables q)) in
  f_online nn' = assign_trainable f a1.2 ∧
  g_online nn' = assign_trainable g a2.2 ∧
  q_online nn' = assign_trainable q a3.2 ∧
  o' = a3.1 ∧
  L f g q = loss.
Proof.
  intros H. apply train_step_Ok in H as (-> & Hb & _). simpl.
  unfold backward, gradient_and_apply in Hb.
  destruct (apply_gradients o _) as [o1 vf]; simpl in *.
  destruct (apply_gradients o1 _) as [o2 vg]; simpl in *.
  destruct (apply_gradients o2 _) as [o3 vq]; simpl in *.
  by injection Hb as <- <-.
Qed.

(** ** The end of an epoch *)

Lemma alignment_tracker_F (st : state) :
  F (reached (alignment_tracker st)) = F st.
Proof.
  unfold alignment_tracker. destruct (F st) as [Fm|] eqn:HF; [|done].
  destruct (eigh Fm) as [eigval eigvec]. simpl.
  destruct (index (fc1_get_weights _) 0) as [w1|e]; [|done].
  destruct (index (fc2_get_weights _) 0) as [w2|e]; done.
Qed.

Lemma track_F (epoch_id : nat) (st : state) :
  F (reached (track epoch_id st)) = F st.
Proof.
  unfold track. destruct (_ =? _)%nat; [apply alignment_tracker_F | done].
Qed.

Lemma checkpoint_F (epoch_id : nat) (st : state) :
  F (checkpoint epoch_id st) = F st.
Proof. unfold checkpoint. by destruct (_ =? _)%nat. Qed.


(** ** The whole run *)

Lemma epoch_body_F_symmetric (epochs batches_per_epoch epoch_id : nat)
    (st : state) :
  F_symmetric (F st) →
  F_symmetric (F (reached (epoch_body epochs batches_per_epoch epoch_id st))).
Proof.
  intros H. unfold epoch_body.
  pose proof (for_range_invariant (λ s, F_symmetric (F s)) batches_per_epoch
    (batch_body epochs epoch_id batches_per_epoch)
    (set_data st (shuffle_training_data (data st)))) as Hinv.
  simpl in Hinv.
  destruct (for_range _ _ _) as [s|e s]; simpl in *.
  - rewrite track_F, checkpoint_F. apply Hinv; [|done].
    intros i s0 Hs0.
    destruct (batch_body_F epochs epoch_id batches_per_epoch i s0)
      as [->|(z1 & z2 & F' & HF' & ->)]; [done|].
    eapply symmetric_update_f; [exact Hs0 | apply symmetric_correlation | done].
  - apply Hinv; [|done].
    intros i s0 Hs0.
    destruct (batch_body_F epochs epoch_id batches_per_epoch i s0)
      as [->|(z1 & z2 & F' & HF' & ->)]; [done|].
    eapply symmetric_update_f; [exact Hs0 | apply symmetric_correlation | done].
Qed.

Lemma epoch_body_F_set (epochs batches_per_epoch epoch_id : nat) (st : state) :
  is_Some (F st) →
  is_Some (F (reached (epoch_body epochs batches_per_epoch epoch_id st))).
Proof.
  intros H. unfold epoch_body.
  pose proof (for_range_invariant (λ s, is_Some (F s)) batches_per_epoch
    (batch_body epochs epoch_id batches_per_epoch)
    (set_data st (shuffle_training_data (data st)))) as Hinv.
  simpl in Hinv.
  assert (∀ i s, is_Some (F s) →
    is_Some (F (reached (batch_body epochs epoch_id batches_per_epoch i s))))
    as Hb.
  { intros i s0 Hs0.
    destruct (batch_body_F epochs epoch_id batches_per_epoch i s0)
      as [->|(z1 & z2 & F' & HF' & ->)]; [done | by eexists]. }
  destruct (for_range _ _ _) as [s|e s]; simpl in *.
  - rewrite track_F, checkpoint_F. by apply Hinv.
  - by apply Hinv.
Qed.

Lemma main_F_symmetric (epochs num_samples : nat) :
  F_symmetric (F (reached (main epochs num_samples))).
Proof.
  unfold main.
  pose proof (for_range_invariant (λ s, F_symmetric (F s)) epochs
    (epoch_body epochs (num_train_images (data (initial_state num_samples)) / 512))
    (initial_state num_samples)) as Hinv.
  simpl in Hinv.
  destruct (for_range _ _ _) as [s|e s]; simpl in *;
    apply Hinv; try done; intros i s0; apply epoch_body_F_symmetric.
Qed.

(** C8: every per-batch correlation is a symmetric matrix, and so is [F]
    whenever it is set, throughout any run.  A batch that gets through
    replaces [F] once, by what [update_f] makes of the [F] it found; the data
    shuffle at the head of an epoch and the checkpoint and the tracker at its
    end leave [F] alone, so an [F] that is set is still set after the next
    epoch. *)
Theorem F_symmetric_updated_per_batch_never_reset :
  (∀ z1 z2 : mat, symmetric (correlation z1 z2)) ∧
  (∀ epochs num_samples : nat,
     F_symmetric (F (reached (main epochs num_samples)))) ∧
  (∀ (epochs epoch_id batches_per_epoch batch_id : nat) (st : state),
     F_symmetric (F st) →
     F_symmetric
       (F (reached (batch_body epochs epoch_id batches_per_epoch batch_id st)))) ∧
  (∀ (epochs epoch_id batches_per_epoch batch_id : nat) (st st' : state),
     batch_body epochs epoch_id batches_per_epoch batch_id st = Done st' →
     let x := get_batch_pretraining (data st) batch_id 512 in
     let fw := forward (nets st) x.1 x.2 in
     ∃ F', update_f (F st) (correlation (z_online_1 fw) (z_online_2 fw))
             lambda_default = Ok F' ∧
           F st' = Some F') ∧
  (∀ (st : state) (d : dataset), F (set_data st d) = F st) ∧
  (∀ (epoch_id : nat) (st : state), F (checkpoint epoch_id st) = F st) ∧
  (∀ (epoch_id : nat) (st : state), F (reached (track epoch_id st)) = F st) ∧
  (∀ (epochs batches_per_epoch epoch_id : nat) (st : state),
     is_Some (F st) →
     is_Some (F (reached (epoch_body epochs batches_per_epoch epoch_id st)))).
Proof.
  split; [apply symmetric_correlation|].
  split; [apply main_F_symmetric|].
  split.
  { intros epochs epoch_id bpe b st Hs.
    destruct (batch_body_F epochs epoch_id bpe b st)
      as [->|(z1 & z2 & F' & HF' & ->)]; [done|].
    eapply symmetric_update_f; [exact Hs | apply symmetric_correlation | done]. }
  split.
  { intros epochs epoch_id bpe b st st' Hd. simpl.
    apply batch_body_Done in Hd as (l & F1 & nn & o & Hs & _ & _ & _ & _ & _ & _ & HF & _).
    apply train_step_Ok in Hs as (_ & _ & Hu). eauto. }
  split; [done|].
  split; [apply checkpoint_F|].
  split; [apply track_F|].
  apply epoch_body_F_set.
Qed.

Lemma first_epoch_without_batches (epochs : nat) (st : state) :
  F st = None →
  epoch_body epochs 0 0 st =
    Crashed ValueError (set_data st (shuffle_training_data (data st))).
Proof.
  intros HF. unfold epoch_body. rewrite for_range_0. simpl.
  unfold track, checkpoint, alignment_tracker. simpl. by rewrite HF.
Qed.

(** C10: with at least one epoch and fewer than 512 training images there
    are [num_train_images // 512 = 0] batches per epoch, so epoch 0 runs no
    batch; [F] is still [None] when the tracker runs at the end of epoch 0,
    the eigendecomposition raises, and the run ends there: no training step
    has run, no loss was appended, nothing was written. *)
Theorem fewer_than_512_images_crash (epochs num_samples : nat) :
  (1 ≤ epochs)%nat →
  (num_train_images (CIFAR10 num_samples) < 512)%nat →
  let st0 := initial_state num_samples in
  let crash := set_data st0 (shuffle_training_data (data st0)) in
  (num_train_images (data st0) / 512)%nat = 0%nat ∧
  main epochs num_samples = Crashed ValueError crash ∧
  F crash = None ∧ losses crash = [] ∧ files crash = [] ∧
  nets crash = initial_networks ∧ opt crash = opt st0 ∧
  F_eigenval crash = [] ∧ allignment crash = [] ∧ wp_eigenval crash = [].
Proof.
  intros He Hn. simpl.
  assert ((num_train_images (CIFAR10 num_samples) / 512)%nat = 0%nat) as H0
    by (by apply Nat.div_small).
  split; [done|]. split; [|done].
  unfold main. cbv zeta.
  change (data (initial_state num_samples)) with (CIFAR10 num_samples).
  rewrite H0.
  by rewrite (for_range_first_crash epochs _ _ _ ValueError He
                (first_epoch_without_batches epochs
                   (initial_state num_samples) eq_refl)).
Qed.

(** C7: a run of one epoch on 512 samples, served as 512 training images
    to networks of mirrored architecture, gets through with exactly one
    batch: one loss value; [F] the correlation of that batch itself, not a
    blend; no batch line printed; no checkpoint written; one entry in each
    of the three alignment logs; and a loss file with that one value. *)
Theorem one_epoch_of_one_batch :
  let st0 := initial_state 512 in
  let x := get_batch_pretraining (shuffle_training_data (data st0)) 0 512 in
  let fw := forward (nets st0) x.1 x.2 in
  let loss := byol_loss (p_online fw) (z_target fw) in
  let step := backward (nets st0) (opt st0) x.1 x.2 (z_target fw) in
  num_train_images (CIFAR10 512) = 512%nat →
  mirror (f_target (nets st0)) (f_online step.1) →
  mirror (g_target (nets st0)) (g_online step.1) →
  is_Some (fc1_get_weights (q_online step.1) !! 0%nat) →
  is_Some (fc2_get_weights (q_online step.1) !! 0%nat) →
  ∃ st, main 1 512 = Done st ∧
    losses st = [loss] ∧
    F st = Some (correlation (z_online_1 fw) (z_online_2 fw)) ∧
    opt st = step.2 ∧
    List.filter is_batch_log (stdout st) = [] ∧
    List.filter is_checkpoint (files st) = [] ∧
    length (F_eigenval st) = 1%nat ∧
    length (allignment st) = 1%nat ∧
    length (wp_eigenval st) = 1%nat ∧
    files st = [("losses.txt", Text [loss])].
Proof.
  intros st0 x fw loss step Hn Hf Hg [w1 H1] [w2 H2].
  set (st1 := set_data st0 (shuffle_training_data (data st0))).
  assert (train_step_pretraining (nets st1) (opt st1)
            (get_batch_pretraining (data st1) 0 512).1
            (get_batch_pretraining (data st1) 0 512).2 (F st1)
          = Ok (loss, correlation (z_online_1 fw) (z_online_2 fw),
                step.1, step.2)) as Hs.
  { apply train_step_first. }
  destruct (backward_targets (nets st0) (opt st0) x.1 x.2 (z_target fw))
    as [Etf Etg]. fold step in Etf, Etg.
  rewrite <- Etf in Hf. rewrite <- Etg in Hg.
  destruct (ema_update_mirror beta _ _ Hf) as (ft & Hft & _).
  destruct (ema_update_mirror beta _ _ Hg) as (gt & Hgt & _).
  pose proof (batch_body_run 1 0 1 0 st1 _ _ _ _ ft gt Hs Hft Hgt) as Hb.
  unfold main. fold st0.
  replace (num_train_images (data st0) / 512)%nat with 1%nat
    by (simpl; by rewrite Hn).
  unfold for_range at 1. simpl. unfold epoch_body at 1. fold st1.
  unfold for_range at 1. simpl. rewrite Hb. simpl.
  unfold track, checkpoint, alignment_tracker. simpl.
  destruct (eigh _) as [eigval eigvec]. simpl.
  unfold index. rewrite H1, H2. simpl.
  eexists. split; [done|]. simpl. by repeat split.
Qed.

End Properties.

(** * The properties on the small instance *)

Example update_f_on_2x2 :
  update_f (Some [[1; 0]; [0; 1]]) [[5; 10]; [10; 5]] lambda_default
    = Ok [[0.8 * 1 + 0.2 * 5; 0.8 * 0 + 0.2 * 10];
          [0.8 * 0 + 0.2 * 10; 0.8 * 1 + 0.2 * 5]] ∧
  update_f None [[5; 10]; [10; 5]] lambda_default = Ok [[5; 10]; [10; 5]] ∧
  update_f (Some [[1; 0]]) [[5; 10]; [10; 5]] lambda_default = Raise ValueError.
Proof. by vm_compute. Qed.

Example ema_update_shorter_target :
  ema_update beta (Net [[1]] []) (Net [[1]; [2]] []) = Raise IndexError ∧
  ema_update beta (Net [[1; 2]] []) (Net [[1]] []) = Raise ValueError ∧
  ema_update beta (Net [[1]] [[3]]) (Net [[0]] [[1]])
    = Ok (Net [[0.99 * 1 + 0.01 * 0]] [[0.99 * 3 + 0.01 * 1]]).
Proof. by vm_compute. Qed.

(** A training step goes through the optimizer three times. *)
Example optimizer_called_three_times : Small.step0.2 = 3%nat.
Proof. by vm_compute. Qed.

(** C2 on the first batch of the small instance. *)
Lemma target_networks_follow_online_small :
  ∃ st', batch_body 1 0 1 0 Small.st0 = Done st' ∧
    blended 0.99 0.01 (get_weights (f_target (nets Small.st0)))
      (get_weights (f_online Small.step0.1))
      (get_weights (f_target (nets st'))) ∧
    blended 0.99 0.01 (get_weights (g_target (nets Small.st0)))
      (get_weights (g_online Small.step0.1))
      (get_weights (g_target (nets st'))) ∧
    length (get_weights (f_target (nets st'))) =
      length (get_weights (f_target (nets Small.st0))) ∧
    length (get_weights (g_target (nets st'))) =
      length (get_weights (g_target (nets Small.st0))) ∧
    f_online (nets st') = f_online Small.step0.1 ∧
    g_online (nets st') = g_online Small.step0.1 ∧
    q_online (nets st') = q_online Small.step0.1.
Proof.
  apply (@target_networks_follow_online Small.ext 1 0 1 0 Small.st0
           Small.loss0 Small.corr0 Small.step0.1 Small.step0.2).
  - vm_compute. reflexivity.
  - vm_compute. reflexivity.
  - vm_compute. reflexivity.
Defined.

(** C3 as first stated fails: with layers that double their output outside
    training mode, the target projection the step computes is not the
    inference-mode one. *)
Lemma target_not_in_inference_mode :
  z_target_1 (@forward Small.ext (nets Small.st0) [[1; 2]] [[2; 0]])
    = [[35; 70]] ∧
  @inference_mode_projection Small.ext (nets Small.st0) [[1; 2]]
    = [[140; 280]] ∧
  z_target_1 (@forward Small.ext (nets Small.st0) [[1; 2]] [[2; 0]])
    ≠ @inference_mode_projection Small.ext (nets Small.st0) [[1; 2]].
Proof. vm_compute. repeat split; discriminate. Qed.

(** C4 on the first batch of the small instance. *)
Lemma loss_pairs_each_view_with_the_other_small :
  let nn := nets Small.st0 in
  let p_online_1 :=
    Small.layer (q_online nn)
      (Small.layer (g_online nn) (Small.layer (f_online nn) Small.x0.1 true)
         true) true in
  let p_online_2 :=
    Small.layer (q_online nn)
      (Small.layer (g_online nn) (Small.layer (f_online nn) Small.x0.2 true)
         true) true in
  let z_target_1 :=
    Small.layer (g_target nn) (Small.layer (f_target nn) Small.x0.1 true) true in
  let z_target_2 :=
    Small.layer (g_target nn) (Small.layer (f_target nn) Small.x0.2 true) true in
  Small.loss0 =
    @byol_loss Small.ext (p_online_1 ++ p_online_2) (z_target_2 ++ z_target_1).
Proof.
  apply (@loss_pairs_each_view_with_the_other Small.ext (nets Small.st0)
           Small.step0.1 (opt Small.st0) Small.step0.2 Small.x0.1 Small.x0.2
           None Small.loss0 Small.corr0).
  vm_compute. reflexivity.
Defined.

(** C5 on the first batch of the small instance. *)
Lemma train_step_leaves_target_networks_small :
  f_target Small.step0.1 = f_target (nets Small.st0) ∧
  g_target Small.step0.1 = g_target (nets Small.st0) ∧
  ∀ st', batch_body 1 0 1 0 Small.st0 = Done st' →
    ema_update beta (f_target (nets Small.st0)) (f_online Small.step0.1)
      = Ok (f_target (nets st')) ∧
    ema_update beta (g_target (nets Small.st0)) (g_online Small.step0.1)
      = Ok (g_target (nets st')).
Proof.
  apply (@train_step_leaves_target_networks Small.ext 1 0 1 0 Small.st0
           Small.loss0 Small.corr0 Small.step0.1 Small.step0.2).
  vm_compute. reflexivity.
Defined.

(** C9 on the first batch of the small instance. *)
Lemma three_gradient_applications_small :
  f_online Small.step0.1 = Net [[1 - 1; 0 - 1]] [[4]] ∧
  g_online Small.step0.1 = Net [[2 - 1]] [] ∧
  q_online Small.step0.1 = Net [[3 - 1]] [] ∧
  Small.step0.2 = 3%nat.
Proof.
  destruct (@three_gradient_applications Small.ext (nets Small.st0)
              Small.step0.1 (opt Small.st0) Small.step0.2 Small.x0.1 Small.x0.2
              None Small.loss0 Small.corr0)
    as (Hf & Hg & Hq & Ho & _).
  { vm_compute. reflexivity. }
  rewrite Hf, Hg, Hq, Ho. vm_compute. by repeat split.
Defined.


(** C7 on the small instance. *)
Lemma one_epoch_of_one_batch_small :
  ∃ st, @main Small.ext 1 512 = Done st ∧
    losses st = [Small.loss0] ∧
    F st = Some Small.corr0 ∧
    opt st = 3%nat ∧
    List.filter is_batch_log (stdout st) = [] ∧
    List.filter is_checkpoint (files st) = [] ∧
    length (F_eigenval st) = 1%nat ∧
    length (allignment st) = 1%nat ∧
    length (wp_eigenval st) = 1%nat ∧
    files st = [("losses.txt", Text [Small.loss0])].
Proof.
  destruct (@one_epoch_of_one_batch Small.ext)
    as (st & Hm & Hl & HF & Ho & Hrest).
  - reflexivity.
  - vm_compute. reflexivity.
  - vm_compute. reflexivity.
  - eexists. reflexivity.
  - eexists. reflexivity.
  - exists st. rewrite Hl, HF, Ho. split; [exact Hm|].
    repeat split; try apply Hrest; vm_compute; reflexivity.
Defined.

(** C10 on the small instance with 100 samples and 3 epochs. *)
Lemma fewer_than_512_images_crash_small :
  @main Small.ext 3 100 =
    Crashed ValueError
      (set_data (@initial_state Small.ext 100) (100%nat, 1%nat)) ∧
  losses (reached (@main Small.ext 3 100)) = [].
Proof.
  destruct (@fewer_than_512_images_crash Small.ext 3 100)
    as (_ & Hm & _).
  - lia.
  - simpl. lia.
  - rewrite Hm. split; reflexivity.
Defined.

(** * Further properties *)

(** ** The target update, whatever the two weight lists *)

Lemma ema_loop_blend_arrays (b : Q) (ow : list vec) :
  ∀ (P Qs tw : list vec), length P = length Qs →
    ema_loop b (Qs ++ ow) (P ++ tw) (seq (length P) (length ow)) =
      r ← blend_arrays b tw ow; Ok (P ++ r).
Proof.
  induction ow as [|w ow IH]; intros P Qs tw HPQ; simpl.
  - done.
  - unfold index.
    rewrite (lookup_app_r P), (lookup_app_r Qs) by lia.
    rewrite HPQ, !Nat.sub_diag.
    destruct tw as [|t tw]; simpl; [done|].
    destruct (vadd (vscale b t) (vscale (1 - b) w)) as [v|e]; simpl; [|done].
    rewrite insert_app_r_alt by lia. rewrite HPQ, Nat.sub_diag. simpl.
    replace (P ++ v :: tw) with ((P ++ [v]) ++ tw) by (by rewrite <- app_assoc).
    replace (Qs ++ w :: ow) with ((Qs ++ [w]) ++ ow) by (by rewrite <- app_assoc).
    replace (S (length Qs)) with (length (P ++ [v]))
      by (rewrite length_app; simpl; lia).
    rewrite IH by (rewrite !length_app; simpl; lia).
    destruct (blend_arrays b tw ow) as [r|e]; simpl; [|done].
    by rewrite <- app_assoc.
Qed.

Lemma ema_update_blend_arrays (b : Q) (target online : net) :
  ema_update b target online =
    ws ← blend_arrays b (get_weights target) (get_weights online);
    set_weights target ws.
Proof.
  unfold ema_update.
  pose proof (ema_loop_blend_arrays b (get_weights online) [] []
                (get_weights target) eq_refl) as H.
  simpl in H. rewrite H.
  by destruct (blend_arrays b _ _).
Qed.

Lemma blend_arrays_Ok (b : Q) (tw ow r : list vec) :
  blend_arrays b tw ow = Ok r ↔
    length <$> take (length ow) tw = length <$> ow ∧
    r = zip_with (zip_with (λ x y, b * x + (1 - b) * y)) tw ow
          ++ drop (length ow) tw.
Proof.
  revert tw r. induction ow as [|w ow IH]; intros tw r; simpl.
  - destruct tw; simpl; split.
    + by intros [= <-].
    + by intros [_ ->].
    + by intros [= <-].
    + by intros [_ ->].
  - destruct tw as [|t tw]; simpl; [split; [done | by intros [? _]]|].
    unfold vadd, vscale. rewrite !length_fmap.
    case_decide as Hl; simpl.
    + rewrite zip_with_fmap_l, zip_with_fmap_r.
      destruct (blend_arrays b tw ow) as [r'|e] eqn:Hr; simpl.
      * apply IH in Hr as [Hs ->]. split.
        -- intros [= <-]. split; [|done]. f_equal; [done | exact Hs].
        -- intros [_ ->]. done.
      * split; [done|]. intros [[= _ Hs] ->].
        assert (blend_arrays b tw ow = Ok
          (zip_with (zip_with (λ x y, b * x + (1 - b) * y)) tw ow
             ++ drop (length ow) tw)) as Hok by (by apply IH).
        congruence.
    + split; [done|]. intros [[= Hl' _] _]. done.
Qed.

Lemma blend_arrays_shapes (b : Q) (tw ow r : list vec) :
  blend_arrays b tw ow = Ok r → length <$> r = length <$> tw.
Proof.
  revert tw r. induction ow as [|w ow IH]; intros tw r; simpl.
  - by intros [= <-].
  - destruct tw as [|t tw]; [done|].
    unfold vadd. case_decide as Hl; [|done]. simpl.
    destruct (blend_arrays b tw ow) as [r'|e] eqn:Hr; [|done]. simpl.
    intros [= <-]. rewrite !fmap_cons. f_equal.
    + rewrite length_zip_with. unfold vscale in *.
      rewrite !length_fmap in Hl. rewrite !length_fmap. lia.
    + by apply IH.
Qed.

(** The update of a target network succeeds exactly when the target has an
    array of the same size for every array of the online network, position
    by position.  It then blends these arrays, keeps any further array of the
    target as it is, and keeps the split between trainable and other
    weights. *)
Theorem ema_update_succeeds_iff (b : Q) (target online target' : net) :
  ema_update b target online = Ok target' ↔
    length <$> take (length (get_weights online)) (get_weights target)
      = length <$> get_weights online ∧
    get_weights target' =
      zip_with (zip_with (λ x y, b * x + (1 - b) * y))
        (get_weights target) (get_weights online)
      ++ drop (length (get_weights online)) (get_weights target) ∧
    length (trainable_variables target') =
      length (trainable_variables target) ∧
    length (non_trainable_variables target') =
      length (non_trainable_variables target).
Proof.
  rewrite ema_update_blend_arrays.
  destruct (blend_arrays b (get_weights target) (get_weights online))
    as [ws|e] eqn:Hb; simpl.
  - pose proof (blend_arrays_shapes _ _ _ _ Hb) as Hsh.
    apply blend_arrays_Ok in Hb as [Hs Hws].
    assert (length ws = length (get_weights target)) as Hlen
      by (by rewrite <- (length_fmap length ws), Hsh, length_fmap).
    unfold get_weights in Hlen. rewrite length_app in Hlen.
    unfold set_weights. case_decide; [|done]. split.
    + intros [= <-]. simpl. split; [done|].
      unfold get_weights at 1. simpl. rewrite take_drop.
      split; [done|]. rewrite length_take, length_drop. lia.
    + intros (_ & Hw & Ht & Hn). rewrite <- Hws in Hw. rewrite <- Hw, <- Ht.
      destruct target' as [tv ntv]. unfold get_weights. simpl.
      by rewrite take_app_length, drop_app_length.
  - split; [done|]. intros (Hs & _).
    assert (blend_arrays b (get_weights target) (get_weights online) = Ok
      (zip_with (zip_with (λ x y, b * x + (1 - b) * y))
         (get_weights target) (get_weights online)
       ++ drop (length (get_weights online)) (get_weights target))) as Hok
      by (by apply blend_arrays_Ok).
    congruence.
Qed.

Lemma blend_arrays_too_short (b : Q) (tw ow : list vec) :
  (length tw < length ow)%nat →
  length <$> tw = length <$> take (length tw) ow →
  blend_arrays b tw ow = Raise IndexError.
Proof.
  revert tw. induction ow as [|w ow IH]; intros tw Hl Hs; simpl in *; [lia|].
  destruct tw as [|t tw]; [done|]. simpl in *.
  injection Hs as Ht Hs.
  rewrite vadd_blend by done. simpl.
  rewrite IH; [done | lia | done].
Qed.

(** X2: a target network with fewer weight arrays than the online one, its
    arrays as large as the online arrays they meet, makes the update stop at
    the first missing index with an [IndexError]. *)
Theorem ema_update_target_too_short (b : Q) (target online : net) :
  (length (get_weights target) < length (get_weights online))%nat →
  length <$> get_weights target
    = length <$> take (length (get_weights target)) (get_weights online) →
  ema_update b target online = Raise IndexError.
Proof.
  intros Hl Hs. rewrite ema_update_blend_arrays.
  by rewrite blend_arrays_too_short.
Qed.

(** X1: a target network that has an array of the right size for every array of
    the online network, and possibly more of them, is updated without
    error: the arrays that meet an online array are blended with it, the
    arrays beyond the last online array are kept as they are, and the
    network keeps as many trainable variables as it had. *)
Theorem ema_update_keeps_surplus_arrays (b : Q) (target online : net) :
  length <$> take (length (get_weights online)) (get_weights target)
    = length <$> get_weights online →
  ∃ target',
    ema_update b target online = Ok target' ∧
    get_weights target' =
      zip_with (zip_with (λ x y, b * x + (1 - b) * y))
        (get_weights target) (get_weights online)
      ++ drop (length (get_weights online)) (get_weights target) ∧
    (∀ i, (length (get_weights online) ≤ i)%nat →
       get_weights target' !! i = get_weights target !! i) ∧
    length (trainable_variables target') =
      length (trainable_variables target).
Proof.
  intros Hs.
  assert (length (get_weights online) ≤ length (get_weights target))%nat
    as Hle.
  { pose proof (f_equal length Hs) as Hl.
    rewrite !length_fmap, length_take in Hl. lia. }
  set (tv := length (trainable_variables target)).
  set (ws := zip_with (zip_with (λ x y, b * x + (1 - b) * y))
               (get_weights target) (get_weights online)
             ++ drop (length (get_weights online)) (get_weights target)).
  assert (length ws = length (get_weights target)) as Hlen.
  { unfold ws. rewrite length_app, length_zip_with, length_drop. lia. }
  assert (ema_update b target online = Ok (Net (take tv ws) (drop tv ws)))
    as Hu.
  { apply ema_update_succeeds_iff. split; [done|].
    unfold get_weights at 1. simpl. rewrite take_drop. split; [done|].
    unfold get_weights in Hlen. rewrite length_app in Hlen.
    rewrite length_take, length_drop. unfold tv. lia. }
  assert (get_weights (Net (take tv ws) (drop tv ws)) = ws) as Hgw
    by (unfold get_weights; simpl; apply take_drop).
  eexists. split; [exact Hu|]. rewrite Hgw.
  split; [done|]. split.
  - intros i Hi. unfold ws. rewrite lookup_app_r; rewrite length_zip_with.
    + rewrite lookup_drop. f_equal. lia.
    + lia.
  - simpl. rewrite length_take. unfold tv in *.
    unfold get_weights in Hlen. rewrite length_app in Hlen. lia.
Qed.

(** ** [update_f], whatever the two matrices *)

Lemma mshape_mscale (c : Q) (M : mat) : mshape (mscale c M) = mshape M.
Proof.
  unfold mshape, mscale, vscale. rewrite <- list_fmap_compose.
  apply list_fmap_ext. intros _ r _. simpl. by rewrite length_fmap.
Qed.

Lemma mshape_zip_with (f : Q → Q → Q) (A B : mat) :
  mshape A = mshape B → mshape (zip_with (zip_with f) A B) = mshape A.
Proof.
  unfold mshape. revert B. induction A as [|ra A IH]; intros [|rb B] H;
    simplify_eq/=; [done|].
  f_equal; [|by apply IH]. rewrite length_zip_with. lia.
Qed.

(** X4: whatever the decay, a second call of [update_f] on an [F] and a [corr]
    of one shape returns a matrix of that shape, whose every entry is
    [lambda_ * F[i][j] + (1 - lambda_) * corr[i][j]]. *)
Theorem update_f_same_shape (F_prev corr : mat) (lambda_ : Q) :
  mshape F_prev = mshape corr →
  ∃ R, update_f (Some F_prev) corr lambda_ = Ok R ∧
    mshape R = mshape F_prev ∧
    ∀ i j, entry R i j =
      a ← entry F_prev i j; c ← entry corr i j;
      Some (lambda_ * a + (1 - lambda_) * c).
Proof.
  intros Hs. unfold update_f, madd. rewrite !mshape_mscale.
  case_decide; [|done]. eexists. split; [done|]. split.
  - rewrite mshape_zip_with by (by rewrite !mshape_mscale).
    apply mshape_mscale.
  - intros i j. unfold mscale, vscale. rewrite entry_zip_with.
    rewrite (entry_fmap (Qmult lambda_)), (entry_fmap (Qmult (1 - lambda_))).
    by destruct (entry F_prev i j), (entry corr i j).
Qed.

(** ** The shape of a batch correlation *)

Lemma mshape_outer_product (r : vec) :
  mshape (matmul ((λ a, [a]) <$> r) [r]) = replicate (length r) (length r).
Proof.
  rewrite outer_product_eq. unfold mshape. rewrite <- list_fmap_compose.
  apply const_fmap. intros i a _. unfold compose.
  by rewrite length_fmap, length_seq.
Qed.

Lemma mshape_msum (Ms : list mat) (s : list nat) :
  Ms ≠ [] → Forall (λ M, mshape M = s) Ms → mshape (msum Ms) = s.
Proof.
  destruct Ms as [|M Ms]; [done|]. intros _ H.
  apply Forall_cons in H as [HM HMs]. simpl.
  revert M HM. induction HMs as [|N Ms HN _ IH]; intros M HM; simpl; [done|].
  apply IH. rewrite mshape_zip_with; [done | congruence].
Qed.

Lemma mshape_mdiv (M : mat) (n : nat) : mshape (mdiv M n) = mshape M.
Proof.
  unfold mshape, mdiv. rewrite <- list_fmap_compose.
  apply list_fmap_ext. intros _ r _. simpl. by rewrite length_fmap.
Qed.

(** X6: projections of width [P], of at least one example, give a correlation
    matrix of [P] rows and [P] columns, whatever the size of the batch. *)
Theorem correlation_shape (z_online_1 z_online_2 : mat) (P : nat) :
  Forall (λ r, length r = P) (z_online_1 ++ z_online_2) →
  z_online_1 ++ z_online_2 ≠ [] →
  mshape (correlation z_online_1 z_online_2) = replicate P P.
Proof.
  intros Hw Hne. unfold correlation, reduce_mean_0.
  rewrite mshape_mdiv, !batch_outer_products, <- fmap_app.
  apply mshape_msum.
  - intros H. apply fmap_nil_inv in H. done.
  - apply Forall_fmap. eapply Forall_impl; [exact Hw|].
    intros r <-. simpl. apply mshape_outer_product.
Qed.

(** ** Counting over a whole run *)

Lemma div_succ (c m : nat) :
  c ≠ 0%nat →
  (S m / c = m / c + (if S m mod c =? 0 then 1 else 0))%nat.
Proof.
  intros Hc.
  pose proof (Nat.div_mod_eq m c) as H1.
  pose proof (Nat.div_mod_eq (S m) c) as H2.
  pose proof (Nat.mod_upper_bound m c Hc) as H3.
  pose proof (Nat.mod_upper_bound (S m) c Hc) as H4.
  destruct (Nat.eqb_spec (S m mod c) 0) as [H0|H0]; nia.
Qed.

Lemma sum_list_singleton (x : nat) : sum_list [x] = x.
Proof. simpl. lia. Qed.

Lemma sum_list_const (c n : nat) :
  sum_list ((λ _, c) <$> seq 0 n) = (n * c)%nat.
Proof.
  induction n as [|n IH]; [done|].
  rewrite seq_S, fmap_app, sum_list_with_app, IH. simpl. lia.
Qed.

Lemma sum_list_every_tenth (n : nat) :
  sum_list ((λ b, if ((b + 1) mod log_every =? 0)%nat then 1 else 0)%nat
              <$> seq 0 n) = (n / 10)%nat.
Proof.
  induction n as [|n IH]; [done|].
  rewrite seq_S, fmap_app, sum_list_with_app, IH.
  rewrite list_fmap_singleton, sum_list_singleton. cbv beta.
  rewrite (div_succ 10 n) by done. unfold log_every.
  by rewrite Nat.add_0_l, Nat.add_1_r.
Qed.

Lemma sum_list_every_fifth (n : nat) :
  sum_list ((λ e, if (e mod 5 =? 0)%nat then 1 else 0)%nat <$> seq 0 n)
    = ((n + 4) / 5)%nat.
Proof.
  induction n as [|n IH]; [done|].
  rewrite seq_S, fmap_app, sum_list_with_app, IH.
  rewrite list_fmap_singleton, sum_list_singleton. cbv beta.
  replace (S n + 4)%nat with (S (n + 4)) by lia.
  rewrite (div_succ 5 (n + 4)) by done.
  replace (S (n + 4)) with (n + 1 * 5)%nat by lia.
  by rewrite Nat.Div0.mod_add, Nat.add_0_l.
Qed.

Lemma checkpoint_names_upto (n : nat) :
  concat ((λ e, if ((e + 1) mod save_every =? 0)%nat
                then [checkpoint_name (e + 1)] else []) <$> seq 0 n)
    = (λ j, checkpoint_name (100 * (j + 1))) <$> seq 0 (n / 100).
Proof.
  induction n as [|n IH]; [done|].
  rewrite seq_S, fmap_app, concat_app, IH.
  rewrite list_fmap_singleton. cbv beta.
  change (concat [?l]) with (l ++ []).
  rewrite (div_succ 100 n) by done. unfold save_every.
  rewrite Nat.add_0_l, Nat.add_1_r.
  destruct (Nat.eqb_spec (S n mod 100) 0) as [H0|H0].
  - rewrite Nat.add_1_r, seq_S, fmap_app, app_nil_r, list_fmap_singleton.
    cbv beta. rewrite Nat.add_0_l. do 3 f_equal.
    pose proof (Nat.div_mod_eq (S n) 100) as H1.
    pose proof (div_succ 100 n) as H2.
    destruct (Nat.eqb_spec (S n mod 100) 0); lia.
  - by rewrite Nat.add_0_r, !app_nil_r.
Qed.

Section Runs.
Context {E : Externals}.

Lemma for_range_Done_S (n : nat) (body : nat → state → outcome)
    (st st' : state) :
  for_range (S n) body st = Done st' →
  ∃ s, for_range n body st = Done s ∧ body n s = Done st'.
Proof.
  rewrite for_range_S.
  destruct (for_range n body st) as [s|e s]; simpl; [eauto | done].
Qed.

Lemma for_range_count (m : state → nat) (d : nat → nat) (n : nat)
    (body : nat → state → outcome) (st st' : state) :
  (∀ i s s', body i s = Done s' → m s' = (m s + d i)%nat) →
  for_range n body st = Done st' →
  m st' = (m st + sum_list (d <$> seq 0 n))%nat.
Proof.
  intros Hb. revert st'. induction n as [|n IH]; intros st' H.
  - injection H as <-. simpl. lia.
  - apply for_range_Done_S in H as (s & Hs & Hn).
    rewrite seq_S, fmap_app, sum_list_with_app. simpl.
    rewrite (Hb _ _ _ Hn), (IH _ Hs). lia.
Qed.

Lemma for_range_collect {A : Type} (m : state → list A) (d : nat → list A)
    (n : nat) (body : nat → state → outcome) (st st' : state) :
  (∀ i s s', body i s = Done s' → m s' = m s ++ d i) →
  for_range n body st = Done st' →
  m st' = m st ++ concat (d <$> seq 0 n).
Proof.
  intros Hb. revert st'. induction n as [|n IH]; intros st' H.
  - injection H as <-. simpl. by rewrite app_nil_r.
  - apply for_range_Done_S in H as (s & Hs & Hn).
    rewrite seq_S, fmap_app, concat_app. simpl.
    rewrite (Hb _ _ _ Hn), (IH _ Hs). by rewrite app_nil_r, app_assoc.
Qed.

Lemma for_range_iter {A : Type} (m : state → A) (f : A → A) (n : nat)
    (body : nat → state → outcome) (st st' : state) :
  (∀ i s s', body i s = Done s' → m s' = f (m s)) →
  for_range n body st = Done st' →
  m st' = Nat.iter n f (m st).
Proof.
  intros Hb. revert st'. induction n as [|n IH]; intros st' H.
  - by injection H as <-.
  - apply for_range_Done_S in H as (s & Hs & Hn).
    simpl. by rewrite (Hb _ _ _ Hn), (IH _ Hs).
Qed.

(** What a batch that gets through leaves of the logs, the data provider,
    the files and the terminal. *)
Lemma batch_body_Done_logs (epochs epoch_id batches_per_epoch batch_id : nat)
    (st st' : state) :
  batch_body epochs epoch_id batches_per_epoch batch_id st = Done st' →
  length (losses st') = (length (losses st) + 1)%nat ∧
  data st' = data st ∧
  F_eigenval st' = F_eigenval st ∧
  allignment st' = allignment st ∧
  wp_eigenval st' = wp_eigenval st ∧
  files st' = files st ∧
  length (List.filter is_batch_log (stdout st')) =
    (length (List.filter is_batch_log (stdout st)) +
     if ((batch_id + 1) mod log_every =? 0)%nat then 1 else 0)%nat.
Proof.
  unfold batch_body.
  destruct (get_batch_pretraining (data st) batch_id 512) as [x1 x2]; simpl.
  destruct (train_step_pretraining _ _ x1 x2 _) as [[[[loss F'] nn] o]|e];
    [|done]. simpl.
  destruct (ema_update beta (f_target nn) (f_online nn)) as [ft|e];
    [|done]. simpl.
  destruct (ema_update beta (g_target nn) (g_online nn)) as [gt|e];
    [|done]. simpl.
  destruct (_ =? _)%nat; intros [= <-]; simpl;
    rewrite ?List.filter_app, !length_app; simpl; repeat split; lia.
Qed.

Lemma batch_body_files (epochs epoch_id batches_per_epoch batch_id : nat)
    (st : state) :
  files (reached (batch_body epochs epoch_id batches_per_epoch batch_id st))
    = files st.
Proof.
  unfold batch_body.
  destruct (get_batch_pretraining (data st) batch_id 512) as [x1 x2]; simpl.
  destruct (train_step_pretraining _ _ x1 x2 _) as [[[[loss F'] nn] o]|e];
    [|done]. simpl.
  destruct (ema_update beta (f_target nn) (f_online nn)) as [ft|e];
    [|done]. simpl.
  destruct (ema_update beta (g_target nn) (g_online nn)) as [gt|e];
    [|done]. simpl.
  by destruct (_ =? _)%nat.
Qed.

Lemma alignment_tracker_files (st : state) :
  files (reached (alignment_tracker st)) = files st.
Proof.
  unfold alignment_tracker. destruct (F st) as [Fm|]; [|done].
  destruct (eigh Fm) as [eigval eigvec]. simpl.
  destruct (index (fc1_get_weights _) 0) as [w1|e]; [|done].
  destruct (index (fc2_get_weights _) 0) as [w2|e]; done.
Qed.

Lemma track_files (epoch_id : nat) (st : state) :
  files (reached (track epoch_id st)) = files st.
Proof.
  unfold track. destruct (_ =? _)%nat; [apply alignment_tracker_files | done].
Qed.

Lemma track_Done_logs (epoch_id : nat) (st st' : state) :
  track epoch_id st = Done st' →
  data st' = data st ∧ losses st' = losses st ∧ stdout st' = stdout st ∧
  files st' = files st ∧
  length (F_eigenval st') =
    (length (F_eigenval st) + if (epoch_id mod 5 =? 0)%nat then 1 else 0)%nat ∧
  length (allignment st') =
    (length (allignment st) + if (epoch_id mod 5 =? 0)%nat then 1 else 0)%nat ∧
  length (wp_eigenval st') =
    (length (wp_eigenval st) + if (epoch_id mod 5 =? 0)%nat then 1 else 0)%nat.
Proof.
  unfold track. destruct (_ =? _)%nat.
  - unfold alignment_tracker. destruct (F st) as [Fm|]; [|done].
    destruct (eigh Fm) as [eigval eigvec]. simpl.
    destruct (index (fc1_get_weights _) 0) as [w1|e]; [|done].
    destruct (index (fc2_get_weights _) 0) as [w2|e]; [|done].
    intros [= <-]. simpl. rewrite !length_app. simpl. by repeat split.
  - intros [= <-]. repeat split; lia.
Qed.

Lemma checkpoint_logs (epoch_id : nat) (st : state) :
  data (checkpoint epoch_id st) = data st ∧
  losses (checkpoint epoch_id st) = losses st ∧
  F_eigenval (checkpoint epoch_id st) = F_eigenval st ∧
  allignment (checkpoint epoch_id st) = allignment st ∧
  wp_eigenval (checkpoint epoch_id st) = wp_eigenval st ∧
  List.filter is_batch_log (stdout (checkpoint epoch_id st)) =
    List.filter is_batch_log (stdout st) ∧
  (files (checkpoint epoch_id st)).*1 =
    (files st).*1 ++
      if ((epoch_id + 1) mod save_every =? 0)%nat
      then [checkpoint_name (epoch_id + 1)] else [].
Proof.
  unfold checkpoint. destruct (_ =? _)%nat; simpl.
  - rewrite List.filter_app, fmap_app. simpl. by rewrite app_nil_r.
  - by rewrite app_nil_r.
Qed.

Lemma epoch_body_Done (epochs batches_per_epoch epoch_id : nat)
    (st st' : state) :
  epoch_body epochs batches_per_epoch epoch_id st = Done st' →
  ∃ s,
    for_range batches_per_epoch
      (batch_body epochs epoch_id batches_per_epoch)
      (set_data st (shuffle_training_data (data st))) = Done s ∧
    track epoch_id (checkpoint epoch_id s) = Done st'.
Proof.
  unfold epoch_body.
  destruct (for_range _ _ _) as [s|e s]; simpl; [eauto | done].
Qed.

(** What an epoch that gets through adds. *)
Lemma epoch_body_Done_logs (epochs batches_per_epoch epoch_id : nat)
    (st st' : state) :
  epoch_body epochs batches_per_epoch epoch_id st = Done st' →
  length (losses st') = (length (losses st) + batches_per_epoch)%nat ∧
  data st' = shuffle_training_data (data st) ∧
  length (F_eigenval st') =
    (length (F_eigenval st) + if (epoch_id mod 5 =? 0)%nat then 1 else 0)%nat ∧
  length (allignment st') =
    (length (allignment st) + if (epoch_id mod 5 =? 0)%nat then 1 else 0)%nat ∧
  length (wp_eigenval st') =
    (length (wp_eigenval st) + if (epoch_id mod 5 =? 0)%nat then 1 else 0)%nat ∧
  (files st').*1 =
    (files st).*1 ++
      (if ((epoch_id + 1) mod save_every =? 0)%nat
       then [checkpoint_name (epoch_id + 1)] else []) ∧
  length (List.filter is_batch_log (stdout st')) =
    (length (List.filter is_batch_log (stdout st)) + batches_per_epoch / 10)%nat.
Proof.
  intros H. apply epoch_body_Done in H as (s & Hb & Ht).
  set (st1 := set_data st (shuffle_training_data (data st))) in Hb.
  set (body := batch_body epochs epoch_id batches_per_epoch) in Hb.
  assert (∀ i s0 s1, body i s0 = Done s1 →
    length (losses s1) = (length (losses s0) + 1)%nat ∧
    data s1 = data s0 ∧ F_eigenval s1 = F_eigenval s0 ∧
    allignment s1 = allignment s0 ∧ wp_eigenval s1 = wp_eigenval s0 ∧
    files s1 = files s0 ∧
    length (List.filter is_batch_log (stdout s1)) =
      (length (List.filter is_batch_log (stdout s0)) +
       if ((i + 1) mod log_every =? 0)%nat then 1 else 0)%nat) as Hstep
    by (intros i s0 s1; apply batch_body_Done_logs).
  pose proof (for_range_count (λ s, length (losses s)) (λ _, 1%nat) _ _ _ _
    (λ i s0 s1 Hd, proj1 (Hstep i s0 s1 Hd)) Hb) as Hl.
  pose proof (for_range_iter data id _ _ _ _
    (λ i s0 s1 Hd, proj1 (proj2 (Hstep i s0 s1 Hd))) Hb) as Hd.
  pose proof (for_range_iter F_eigenval id _ _ _ _
    (λ i s0 s1 Hd, proj1 (proj2 (proj2 (Hstep i s0 s1 Hd)))) Hb) as H1.
  pose proof (for_range_iter allignment id _ _ _ _
    (λ i s0 s1 Hd, proj1 (proj2 (proj2 (proj2 (Hstep i s0 s1 Hd))))) Hb) as H2.
  pose proof (for_range_iter wp_eigenval id _ _ _ _
    (λ i s0 s1 Hd,
       proj1 (proj2 (proj2 (proj2 (proj2 (Hstep i s0 s1 Hd)))))) Hb) as H3.
  pose proof (for_range_iter files id _ _ _ _
    (λ i s0 s1 Hd,
       proj1 (proj2 (proj2 (proj2 (proj2 (proj2 (Hstep i s0 s1 Hd))))))) Hb)
    as Hf.
  pose proof (for_range_count
    (λ s, length (List.filter is_batch_log (stdout s)))
    (λ b, if ((b + 1) mod log_every =? 0)%nat then 1 else 0)%nat _ _ _ _
    (λ i s0 s1 Hd,
       proj2 (proj2 (proj2 (proj2 (proj2 (proj2 (Hstep i s0 s1 Hd))))))) Hb)
    as Ho.
  assert (∀ {A} n (x : A), Nat.iter n id x = x) as Hid
    by (intros A n x; induction n; simpl; congruence).
  rewrite Hid in Hd, H1, H2, H3, Hf.
  rewrite sum_list_const in Hl. rewrite sum_list_every_tenth in Ho.
  apply track_Done_logs in Ht as (Td & Tl & To & Tf & T1 & T2 & T3).
  destruct (checkpoint_logs epoch_id s) as (Cd & Cl & C1 & C2 & C3 & Co & Cf).
  rewrite Tl, Cl, Td, Cd, T1, C1, T2, C2, T3, C3, Tf, Cf, To, Co.
  rewrite Hl, Hd, H1, H2, H3, Hf, Ho. simpl.
  repeat split; lia.
Qed.

Lemma main_Done (epochs num_samples : nat) (st : state) :
  main epochs num_samples = Done st →
  ∃ s,
    for_range epochs
      (epoch_body epochs (num_train_images (CIFAR10 num_samples) / 512))
      (initial_state num_samples) = Done s ∧
    st = write_file s "losses.txt" (Text (losses s)).
Proof.
  unfold main. cbv zeta.
  change (data (initial_state num_samples)) with (CIFAR10 num_samples).
  destruct (for_range _ _ _) as [s|e s]; simpl; [|done].
  intros [= <-]. eauto.
Qed.

(** X7: a run that gets through has appended one loss for every batch of every
    epoch, and its last act was to write all of them, in order, to
    [losses.txt]. *)
Theorem completed_run_losses (epochs num_samples : nat) (st : state) :
  main epochs num_samples = Done st →
  length (losses st) =
    (epochs * (num_train_images (CIFAR10 num_samples) / 512))%nat ∧
  last (files st) = Some ("losses.txt", Text (losses st)).
Proof.
  intros H. apply main_Done in H as (s & Hr & ->). simpl.
  split; [|by rewrite last_snoc].
  pose proof (for_range_count (λ s, length (losses s))
    (λ _, (num_train_images (CIFAR10 num_samples) / 512)%nat) _ _ _ _
    (λ i s0 s1 Hd, proj1 (epoch_body_Done_logs _ _ _ _ _ Hd)) Hr) as Hl.
  by rewrite sum_list_const in Hl.
Qed.

(** X8: a run of [epochs] epochs that gets through returns three alignment logs
    of [ceil(epochs / 5)] entries each: one for each of the epochs 0, 5,
    10, ... *)
Theorem completed_run_alignment_logs (epochs num_samples : nat) (st : state) :
  main epochs num_samples = Done st →
  length (F_eigenval st) = ((epochs + 4) / 5)%nat ∧
  length (allignment st) = ((epochs + 4) / 5)%nat ∧
  length (wp_eigenval st) = ((epochs + 4) / 5)%nat.
Proof.
  intros H. apply main_Done in H as (s & Hr & ->). simpl.
  pose proof (for_range_count (λ s, length (F_eigenval s))
    (λ e, if (e mod 5 =? 0)%nat then 1 else 0)%nat _ _ _ _
    (λ i s0 s1 Hd,
       proj1 (proj2 (proj2 (epoch_body_Done_logs _ _ _ _ _ Hd)))) Hr) as H1.
  pose proof (for_range_count (λ s, length (allignment s))
    (λ e, if (e mod 5 =? 0)%nat then 1 else 0)%nat _ _ _ _
    (λ i s0 s1 Hd,
       proj1 (proj2 (proj2 (proj2 (epoch_body_Done_logs _ _ _ _ _ Hd))))) Hr)
    as H2.
  pose proof (for_range_count (λ s, length (wp_eigenval s))
    (λ e, if (e mod 5 =? 0)%nat then 1 else 0)%nat _ _ _ _
    (λ i s0 s1 Hd,
       proj1 (proj2 (proj2 (proj2 (proj2
         (epoch_body_Done_logs _ _ _ _ _ Hd)))))) Hr) as H3.
  rewrite sum_list_every_fifth in H1, H2, H3. by repeat split.
Qed.

(** X9: the files of a run that gets through are, in this order, the encoder
    checkpoints [f_online_100.h5], [f_online_200.h5], ..., one for every
    full hundred of epochs, and then [losses.txt]. *)
Theorem completed_run_files (epochs num_samples : nat) (st : state) :
  main epochs num_samples = Done st →
  (files st).*1 =
    ((λ j, checkpoint_name (100 * (j + 1))) <$> seq 0 (epochs / 100))
    ++ ["losses.txt"].
Proof.
  intros H. apply main_Done in H as (s & Hr & ->). simpl.
  rewrite fmap_app. simpl. f_equal.
  pose proof (for_range_collect (λ s, (files s).*1)
    (λ e, if ((e + 1) mod save_every =? 0)%nat
          then [checkpoint_name (e + 1)] else []) _ _ _ _
    (λ i s0 s1 Hd,
       proj1 (proj2 (proj2 (proj2 (proj2 (proj2
         (epoch_body_Done_logs _ _ _ _ _ Hd))))))) Hr) as Hf.
  by rewrite checkpoint_names_upto in Hf.
Qed.

(** X10: a run that gets through has printed one batch line for every tenth batch
    of every epoch. *)
Theorem completed_run_batch_lines (epochs num_samples : nat) (st : state) :
  main epochs num_samples = Done st →
  length (List.filter is_batch_log (stdout st)) =
    (epochs * (num_train_images (CIFAR10 num_samples) / 512 / 10))%nat.
Proof.
  intros H. apply main_Done in H as (s & Hr & ->). simpl.
  pose proof (for_range_count
    (λ s, length (List.filter is_batch_log (stdout s)))
    (λ _, (num_train_images (CIFAR10 num_samples) / 512 / 10)%nat) _ _ _ _
    (λ i s0 s1 Hd,
       proj2 (proj2 (proj2 (proj2 (proj2 (proj2
         (epoch_body_Done_logs _ _ _ _ _ Hd))))))) Hr) as Ho.
  by rewrite sum_list_const in Ho.
Qed.

(** X11: in a run that gets through the data provider was shuffled once per
    epoch, and nothing else changed it. *)
Theorem completed_run_shuffles (epochs num_samples : nat) (st : state) :
  main epochs num_samples = Done st →
  data st = Nat.iter epochs shuffle_training_data (CIFAR10 num_samples).
Proof.
  intros H. apply main_Done in H as (s & Hr & ->). simpl.
  exact (for_range_iter data shuffle_training_data _ _ _ _
    (λ i s0 s1 Hd, proj1 (proj2 (epoch_body_Done_logs _ _ _ _ _ Hd))) Hr).
Qed.

Lemma checkpoint_name_not_losses (epoch : nat) :
  checkpoint_name epoch ≠ "losses.txt".
Proof. unfold checkpoint_name. intros H. discriminate H. Qed.

Lemma epoch_body_no_loss_file (epochs batches_per_epoch epoch_id : nat)
    (st : state) :
  "losses.txt" ∉ (files st).*1 →
  "losses.txt" ∉
    (files (reached (epoch_body epochs batches_per_epoch epoch_id st))).*1.
Proof.
  intros H. unfold epoch_body.
  pose proof (for_range_invariant (λ s, files s = files st) batches_per_epoch
    (batch_body epochs epoch_id batches_per_epoch)
    (set_data st (shuffle_training_data (data st)))
    (λ i s Hs, eq_trans (batch_body_files _ _ _ _ s) Hs) eq_refl) as Hf.
  destruct (for_range _ _ _) as [s|e s]; simpl in *.
  - rewrite track_files.
    destruct (checkpoint_logs epoch_id s) as (_ & _ & _ & _ & _ & _ & ->).
    rewrite Hf. destruct (_ =? _)%nat.
    + intros [Hin|Hin]%elem_of_app; [done|].
      apply list_elem_of_singleton in Hin.
      by apply (checkpoint_name_not_losses (epoch_id + 1)).
    + by rewrite app_nil_r.
  - by rewrite Hf.
Qed.

(** X12: a run that stops at an exception has not written [losses.txt]: the
    losses it had computed until then are lost. *)
Theorem crashed_run_writes_no_loss_file (epochs num_samples : nat) (e : exn)
    (st : state) :
  main epochs num_samples = Crashed e st →
  "losses.txt" ∉ (files st).*1.
Proof.
  unfold main. cbv zeta.
  pose proof (for_range_invariant (λ s, "losses.txt" ∉ (files s).*1) epochs
    (epoch_body epochs (num_train_images (data (initial_state num_samples)) / 512))
    (initial_state num_samples)
    (λ i s Hs, epoch_body_no_loss_file _ _ _ s Hs)) as Hinv.
  destruct (for_range _ _ _) as [s|e' s]; simpl in *; [done|].
  intros [= _ <-]. apply Hinv. simpl. apply not_elem_of_nil.
Qed.

End Runs.

(** * The further properties on the small instance *)

Lemma done_reached {E : Externals} (o : outcome) :
  is_done o = true → o = Done (reached o).
Proof. by destruct o. Qed.

(** X2 on the small instance. *)
Lemma ema_update_target_too_short_small :
  ema_update beta (Net [[1]] []) (Net [[1]; [2]] []) = Raise IndexError.
Proof.
  apply ema_update_target_too_short.
  - simpl. lia.
  - reflexivity.
Defined.

(** X1 on the small instance. *)
Lemma ema_update_keeps_surplus_arrays_small :
  ∃ target',
    ema_update beta (Net [[1]] [[3]; [7; 7]]) (Net [[0]] [[1]]) = Ok target' ∧
    get_weights target' =
      zip_with (zip_with (λ x y, beta * x + (1 - beta) * y))
        [[1]; [3]; [7; 7]] [[0]; [1]]
      ++ drop 2 [[1]; [3]; [7; 7]] ∧
    (∀ i, (2 ≤ i)%nat →
       get_weights target' !! i = [[1]; [3]; [7; 7]] !! i) ∧
    length (trainable_variables target') = 1%nat.
Proof.
  apply (ema_update_keeps_surplus_arrays beta (Net [[1]] [[3]; [7; 7]])
           (Net [[0]] [[1]])).
  reflexivity.
Defined.

(** X4 on the small instance. *)
Lemma update_f_same_shape_small :
  ∃ R, update_f (Some [[1; 0]; [0; 1]]) [[5; 10]; [10; 5]] 0.5 = Ok R ∧
    mshape R = [2; 2]%nat ∧
    ∀ i j, entry R i j =
      a ← entry [[1; 0]; [0; 1]] i j; c ← entry [[5; 10]; [10; 5]] i j;
      Some (0.5 * a + (1 - 0.5) * c).
Proof.
  apply (update_f_same_shape [[1; 0]; [0; 1]] [[5; 10]; [10; 5]] 0.5).
  reflexivity.
Defined.

(** X6 on the small instance. *)
Lemma correlation_shape_small :
  mshape (correlation [[1; 2; 3]; [4; 5; 6]] [[0; 1; 0]; [2; 2; 2]])
    = [3; 3; 3]%nat.
Proof.
  apply (correlation_shape _ _ 3).
  - repeat constructor.
  - simpl. discriminate.
Defined.

(** X7 on the small instance. *)
Lemma completed_run_losses_small :
  length (losses Small.final) = (1 * (512 / 512))%nat ∧
  last (files Small.final) = Some ("losses.txt", Text (losses Small.final)).
Proof.
  apply (@completed_run_losses Small.ext 1 512 Small.final).
  vm_compute. reflexivity.
Defined.

(** X8 on the small instance. *)
Lemma completed_run_alignment_logs_small :
  length (F_eigenval Small.final) = ((1 + 4) / 5)%nat ∧
  length (allignment Small.final) = ((1 + 4) / 5)%nat ∧
  length (wp_eigenval Small.final) = ((1 + 4) / 5)%nat.
Proof.
  apply (@completed_run_alignment_logs Small.ext 1 512 Small.final).
  vm_compute. reflexivity.
Defined.

(** X9 on a run of a hundred epochs of the instance at rest, which writes
    one checkpoint. *)
Lemma completed_run_files_century :
  (files Steady.century).*1 = ["f_online_100.h5"; "losses.txt"].
Proof.
  unfold Steady.century.
  refine (eq_trans
    (@completed_run_files Steady.ext 100 512 _ (done_reached _ _)) _).
  - vm_compute. reflexivity.
  - reflexivity.
Defined.

(** X10 on a run of one epoch of ten batches of the instance at rest, which
    prints one batch line. *)
Lemma completed_run_batch_lines_ten_batches :
  length (List.filter is_batch_log (stdout Steady.ten_batches)) = 1%nat.
Proof.
  unfold Steady.ten_batches.
  refine (eq_trans
    (@completed_run_batch_lines Steady.ext 1 (10 * 512) _ (done_reached _ _))
    _).
  - vm_compute. reflexivity.
  - reflexivity.
Defined.

(** X11 on the small instance. *)
Lemma completed_run_shuffles_small :
  data Small.final = (512%nat, 1%nat).
Proof.
  apply (@completed_run_shuffles Small.ext 1 512 Small.final).
  vm_compute. reflexivity.
Defined.

(** X12 on the small instance. *)
Lemma crashed_run_writes_no_loss_file_small :
  "losses.txt" ∉ (files Small.stopped).*1.
Proof.
  apply (@crashed_run_writes_no_loss_file Small.ext 3 100 ValueError
           Small.stopped).
  vm_compute. reflexivity.
Defined.
